(** * Uscreen / Salesforce reconciliation: the [DataComparer] of
    [src/data-comparer.js], embedded shallowly.

    The file has three layers.
    - [JS]: the JavaScript built-ins the comparer relies on (truthiness and
      [||], [String()], [toLowerCase], [includes], [parseFloat], [Date]
      time values, [Array.prototype.sort]).
    - the data the comparer handles: csv-parse rows, Salesforce records, the
      instance state (two [Map]s) and the five result buckets.
    - [compare] and [findLatestPayment], statement by statement, followed by
      the properties proved about them.

    Around the comparer, the pure parts of its callers are embedded too: the
    flat transform of [SalesforceClient.getProgramRoles], the rows and the
    write order of [GoogleSheetsClient], the choice of the export files in
    [UscreenScraper.downloadExports], and [main] after the scrape and the
    query. *)

From Stdlib Require Import ZArith String Ascii List Lia Bool Sorted.
From stdpp Require Import gmap strings list fin_maps pretty.

Open Scope string_scope.
Open Scope Z_scope.

(* ===================================================================== *)
(** * JavaScript built-ins                                                *)
(* ===================================================================== *)

Module JS.

(** ** Numbers

    A Number is [NaN], an infinity, or a finite decimal [m * 10^e].  The
    comparer only ever compares amounts against zero, so the decimal is kept
    exact: binary64 rounding is not modelled. *)
Inductive number : Type :=
  | NaN
  | Infinity (negative : bool)
  | Dec (m e : Z).

(** [n <= 0] *)
Definition le_zero (n : number) : bool :=
  match n with
  | NaN => false
  | Infinity negative => negative
  | Dec m _ => m <=? 0
  end.

(** [n > 0] *)
Definition gt_zero (n : number) : bool :=
  match n with
  | NaN => false
  | Infinity negative => negb negative
  | Dec m _ => 0 <? m
  end.

Definition isNaN (n : number) : bool :=
  match n with NaN => true | _ => false end.

(** ** Strings *)

Definition nonempty (s : string) : bool :=
  match s with EmptyString => false | String _ _ => true end.

Definition lower_ascii (c : ascii) : ascii :=
  let n := N_of_ascii c in
  if ((65 <=? n) && (n <=? 90))%N then ascii_of_N (n + 32) else c.

(** [s.toLowerCase()], on the ASCII letters; other bytes are left alone. *)
Fixpoint toLowerCase (s : string) : string :=
  match s with
  | EmptyString => EmptyString
  | String c s' => String (lower_ascii c) (toLowerCase s')
  end.

(** [s.includes(t)] *)
Fixpoint includes (s t : string) : bool :=
  String.prefix t s ||
  match s with
  | EmptyString => false
  | String _ s' => includes s' t
  end.

(** ** Property reads: a string, or [undefined] ([None]) *)

Definition truthy (v : option string) : bool :=
  match v with
  | Some s => nonempty s
  | None => false
  end.

(** [a || b] between two property reads. *)
Definition or (a b : option string) : option string :=
  if truthy a then a else b.

(** [a || d] where [d] is a string literal: the result is a string. *)
Definition or_str (a : option string) (d : string) : string :=
  match a with
  | Some (String c s) => String c s
  | _ => d
  end.

(** [String(v)] for a property read. *)
Definition String_ (v : option string) : string :=
  match v with
  | Some s => s
  | None => "undefined"
  end.

(** ** Field values of a Salesforce record: [null], a string or an
    integer-valued number. *)
Inductive value : Type :=
  | null
  | str (s : string)
  | num (n : Z).

Definition truthy_value (v : value) : bool :=
  match v with
  | null => false
  | str s => nonempty s
  | num n => negb (n =? 0)
  end.

Definition String_value (v : value) : string :=
  match v with
  | null => "null"
  | str s => s
  | num n => pretty n
  end.

(** ** parseFloat

    Leading white space is skipped, then the longest prefix that is a
    [StrDecimalLiteral] is converted; [NaN] when there is none. *)

Definition is_white (c : ascii) : bool :=
  let n := N_of_ascii c in
  ((n =? 32) || ((9 <=? n) && (n <=? 13)))%N.

Fixpoint skip_white (s : string) : string :=
  match s with
  | String c s' => if is_white c then skip_white s' else s
  | EmptyString => EmptyString
  end.

Definition digit_of (c : ascii) : option Z :=
  let n := N_of_ascii c in
  if ((48 <=? n) && (n <=? 57))%N then Some (Z.of_N (n - 48)) else None.

(** The leading decimal digits of [s], accumulated onto [acc]: the value,
    how many digits were read, and the rest of the string. *)
Fixpoint digits (s : string) (acc : Z) (count : Z) : Z * Z * string :=
  match s with
  | String c s' =>
      match digit_of c with
      | Some d => digits s' (10 * acc + d) (count + 1)
      | None => (acc, count, s)
      end
  | EmptyString => (acc, count, s)
  end.

(** The optional sign in front of a literal or of an exponent. *)
Definition sign (s : string) : bool * string :=
  match s with
  | String "-" s' => (true, s')
  | String "+" s' => (false, s')
  | _ => (false, s)
  end.

(** [ExponentPart]: [e] or [E], an optional sign and at least one digit;
    zero when the text does not continue with one. *)
Definition exponent (s : string) : Z :=
  match s with
  | String c s' =>
      if (Ascii.eqb c "e" || Ascii.eqb c "E")%bool then
        let '(negative, s'') := sign s' in
        let '(v, count, _) := digits s'' 0 0 in
        if count =? 0 then 0 else if negative then - v else v
      else 0
  | EmptyString => 0
  end.

Definition parseFloat (input : string) : number :=
  let '(negative, s) := sign (skip_white input) in
  if String.prefix "Infinity" s then Infinity negative else
  let '(ip, ni, s1) := digits s 0 0 in
  let '(m, nf, s2) :=
    match s1 with
    | String "." s' => let '(m, count, s'') := digits s' ip 0 in (m, count, s'')
    | _ => (ip, 0, s1)
    end in
  if (ni + nf =? 0) then NaN
  else Dec (if negative then - m else m) (exponent s2 - nf).

(** ** Dates

    A [Date] holds a time value: milliseconds since the epoch, or [NaN] for
    an Invalid Date ([None]). *)
Definition Date : Type := option Z.

(** [a > b] between two dates: both are converted to their time values. *)
Definition date_gt (a b : Date) : bool :=
  match a, b with
  | Some x, Some y => y <? x
  | _, _ => false
  end.

(** [a - b] between two dates; [None] is [NaN]. *)
Definition date_sub (a b : Date) : option Z :=
  match a, b with
  | Some x, Some y => Some (x - y)
  | _, _ => None
  end.

(** [Date.parse] on the one format ECMAScript fixes for every engine that the
    examples need, the date-only form [YYYY-MM-DD] (midnight UTC). *)
Definition is_leap (y : Z) : bool :=
  ((y mod 4 =? 0) && negb (y mod 100 =? 0)) || (y mod 400 =? 0).

Definition days_in_month (y m : Z) : Z :=
  if m =? 2 then (if is_leap y then 29 else 28)
  else if (m =? 4) || (m =? 6) || (m =? 9) || (m =? 11) then 30
  else 31.

Definition days_from_civil (y m d : Z) : Z :=
  let y' := if m <=? 2 then y - 1 else y in
  let era := y' / 400 in
  let yoe := y' - era * 400 in
  let mp := (m + 9) mod 12 in
  let doy := (153 * mp + 2) / 5 + d - 1 in
  let doe := yoe * 365 + yoe / 4 - yoe / 100 + doy in
  era * 146097 + doe - 719468.

Definition parse_iso_date (s : string) : option Z :=
  let '(y, ny, s1) := digits s 0 0 in
  match s1 with
  | String "-" s2 =>
      let '(m, nm, s3) := digits s2 0 0 in
      match s3 with
      | String "-" s4 =>
          let '(d, nd, s5) := digits s4 0 0 in
          if (ny =? 4) && (nm =? 2) && (nd =? 2) && negb (nonempty s5)
             && (1 <=? m) && (m <=? 12) && (1 <=? d) && (d <=? days_in_month y m)
          then Some (days_from_civil y m d * 86400000)
          else None
      | _ => None
      end
  | _ => None
  end.

(** ** Array.prototype.sort

    [comparefn] returns a Number, [None] standing for [NaN], which
    [SortCompare] reads as [+0].  ECMAScript asks for a stable sort; when the
    comparator is consistent the result is the unique stable ordering, which
    this insertion sort computes.  For an inconsistent comparator the order
    is left to the engine. *)
Section Sort.
Context {A : Type} (comparefn : A -> A -> option Z).

Definition SortCompare (x y : A) : Z :=
  match comparefn x y with
  | Some v => v
  | None => 0
  end.

Fixpoint insert (x : A) (l : list A) : list A :=
  match l with
  | [] => [x]
  | y :: l' => if 0 <? SortCompare x y then y :: insert x l' else x :: l
  end.

Definition sort (l : list A) : list A := foldr insert [] l.
End Sort.

(** ** More strings: [endsWith], and [split(sep)[0]] *)

(** [s.endsWith(suffix)] *)
Fixpoint endsWith (s suffix : string) : bool :=
  String.eqb s suffix ||
  match s with
  | EmptyString => false
  | String _ s' => endsWith s' suffix
  end.

(** [s.split(sep)[0]] for a one-character separator: the text before its
    first occurrence, all of [s] when there is none. *)
Fixpoint split_head (sep : ascii) (s : string) : string :=
  match s with
  | EmptyString => EmptyString
  | String c s' => if Ascii.eqb c sep then EmptyString else String c (split_head sep s')
  end.

(** Truthiness of a Number: neither zero nor [NaN]. *)
Definition truthy_number (n : number) : bool :=
  match n with
  | NaN => false
  | Infinity _ => true
  | Dec m _ => negb (m =? 0)
  end.

(** ** Date.prototype.toISOString *)

(** The civil date of a day number counted from 1970-01-01. *)
Definition civil_from_days (days : Z) : Z * Z * Z :=
  let z := days + 719468 in
  let era := z / 146097 in
  let doe := z - era * 146097 in
  let yoe := (doe - doe / 1460 + doe / 36524 - doe / 146096) / 365 in
  let doy := doe - (365 * yoe + yoe / 4 - yoe / 100) in
  let mp := (5 * doy + 2) / 153 in
  let d := doy - (153 * mp + 2) / 5 + 1 in
  let m := if mp <? 10 then mp + 3 else mp - 9 in
  (if m <=? 2 then yoe + era * 400 + 1 else yoe + era * 400, m, d).

(** The last [width] decimal digits of [n], most significant first. *)
Fixpoint pad (width : nat) (n : Z) : string :=
  match width with
  | O => EmptyString
  | S w => pad w (n / 10) +:+ String (ascii_of_N (Z.to_N (48 + n mod 10))) EmptyString
  end.

(** Years 0 to 9999 print with four digits, the others with a sign and six. *)
Definition iso_year (y : Z) : string :=
  if (0 <=? y) && (y <=? 9999) then pad 4 y
  else if y <? 0 then String "-" (pad 6 (- y))
  else String "+" (pad 6 y).

(** [new Date(t).toISOString()] for a time value [t]. *)
Definition iso_string (t : Z) : string :=
  let '(y, m, d) := civil_from_days (t / 86400000) in
  let ms := t mod 86400000 in
  iso_year y +:+ "-" +:+ pad 2 m +:+ "-" +:+ pad 2 d +:+ "T"
  +:+ pad 2 (ms / 3600000) +:+ ":" +:+ pad 2 ((ms / 60000) mod 60) +:+ ":"
  +:+ pad 2 ((ms / 1000) mod 60) +:+ "." +:+ pad 3 (ms mod 1000) +:+ "Z".

(** What evaluating an expression yields: a value, or a thrown [RangeError],
    the only exception the modelled code can raise. *)
Inductive completion (A : Type) : Type :=
  | Normal (a : A)
  | ThrowRangeError.
Arguments Normal {A} a.
Arguments ThrowRangeError {A}.

(** [d.toISOString()]: an Invalid Date throws a [RangeError]. *)
Definition toISOString (d : Date) : completion string :=
  match d with
  | Some t => Normal (iso_string t)
  | None => ThrowRangeError
  end.

Definition bind {A B : Type} (c : completion A) (k : A -> completion B) :
    completion B :=
  match c with
  | Normal a => k a
  | ThrowRangeError => ThrowRangeError
  end.

(** [l.map(f)] when the callback may throw: the first throw ends the map. *)
Fixpoint map_throwing {A B : Type} (f : A -> completion B) (l : list A) :
    completion (list B) :=
  match l with
  | [] => Normal []
  | x :: l' =>
      bind (f x) (fun y => bind (map_throwing f l') (fun ys => Normal (y :: ys)))
  end.

End JS.

(* ===================================================================== *)
(** * Data                                                                *)
(* ===================================================================== *)

(** A record of a Uscreen CSV export as csv-parse builds it with
    [columns: true]: an object from column header to cell text. *)
Abbreviation Row := (gmap string string).

(** A Salesforce Program Role as [SalesforceClient.getProgramRoles] flattens
    it; only the fields the comparer reads are kept, and [sfId]. *)
Record SFRecord : Type := {
  sfId : string;
  contactEmail : string;
  uscreenMemberId : JS.value;
  uscreenSubscriptionStatus : option string;
  uscreenLastPaymentDate : option string
}.

Record UscreenData : Type := {
  users : list Row;
  payments : list Row
}.

(** The instance: the two lookup maps the constructor creates. *)
Record DataComparer : Type := {
  sfByUscreenId : gmap string SFRecord;
  sfByEmail : gmap string SFRecord
}.

(** [new DataComparer()] *)
Definition new_DataComparer : DataComparer :=
  {| sfByUscreenId := ∅; sfByEmail := ∅ |}.

Record MatchData : Type := {
  uscreenUser : Row;
  sfRecord : SFRecord;
  uscreenId : option string;
  email : string
}.

(** The object [findLatestPayment] returns. *)
Record LatestPayment : Type := {
  lp_email : option string;
  amount : JS.number;
  chargeDate : option string;
  subscription : option string;
  paymentId : option string
}.

(** [{...matchData, previousStatus, newStatus}] *)
Record CancelledEntry : Type := {
  c_matchData : MatchData;
  previousStatus : option string;
  newStatus : string
}.

(** [{...matchData, latestPayment, sfLastPaymentDate, uscreenLastPaymentDate}];
    [sfLastPaymentDate] is a [Date] or [null], and the entry's
    [uscreenLastPaymentDate] is [n_uscreenLastPaymentDate] here. *)
Record NeedsUpdateEntry : Type := {
  n_matchData : MatchData;
  latestPayment : LatestPayment;
  sfLastPaymentDate : option JS.Date;
  n_uscreenLastPaymentDate : JS.Date
}.

Record NewUserEntry : Type := {
  nu_uscreenUser : Row;
  nu_uscreenId : option string;
  nu_email : string;
  lifetime : JS.number;
  status : string
}.

Record NoMatchEntry : Type := {
  nm_uscreenUser : Row;
  nm_uscreenId : option string;
  nm_email : string;
  reason : string
}.

Record Results : Type := {
  matched : list MatchData;
  needsUpdate : list NeedsUpdateEntry;
  newUsers : list NewUserEntry;
  cancelled : list CancelledEntry;
  noMatch : list NoMatchEntry
}.

Definition empty_results : Results :=
  {| matched := []; needsUpdate := []; newUsers := []; cancelled := [];
     noMatch := [] |}.

(** [results.<bucket>.push(x)] *)
Definition push_matched (r : Results) (x : MatchData) : Results :=
  {| matched := matched r ++ [x]; needsUpdate := needsUpdate r;
     newUsers := newUsers r; cancelled := cancelled r; noMatch := noMatch r |}.

Definition push_needsUpdate (r : Results) (x : NeedsUpdateEntry) : Results :=
  {| matched := matched r; needsUpdate := needsUpdate r ++ [x];
     newUsers := newUsers r; cancelled := cancelled r; noMatch := noMatch r |}.

Definition push_newUsers (r : Results) (x : NewUserEntry) : Results :=
  {| matched := matched r; needsUpdate := needsUpdate r;
     newUsers := newUsers r ++ [x]; cancelled := cancelled r;
     noMatch := noMatch r |}.

Definition push_cancelled (r : Results) (x : CancelledEntry) : Results :=
  {| matched := matched r; needsUpdate := needsUpdate r;
     newUsers := newUsers r; cancelled := cancelled r ++ [x];
     noMatch := noMatch r |}.

Definition push_noMatch (r : Results) (x : NoMatchEntry) : Results :=
  {| matched := matched r; needsUpdate := needsUpdate r;
     newUsers := newUsers r; cancelled := cancelled r;
     noMatch := noMatch r ++ [x] |}.

Infix "|||" := JS.or (at level 50, left associativity).

(* ===================================================================== *)
(** * The comparer                                                        *)
(* ===================================================================== *)

(** ** Reading a member row (lines 37-40 and 61 of [compare]) *)

Definition user_uscreenId (user : Row) : option string :=
  user !! "User ID" ||| user !! "user_id" ||| user !! "id".

Definition user_email (user : Row) : string :=
  JS.toLowerCase (JS.or_str (user !! "email" ||| user !! "User email") "").

Definition user_status (user : Row) : string :=
  JS.toLowerCase (JS.or_str (user !! "Status" ||| user !! "status") "").

(** [parseFloat] converts its argument to a string first, so the default [0]
    is read back from ["0"]. *)
Definition user_lifetime (user : Row) : JS.number :=
  JS.parseFloat (JS.or_str (user !! "Lifetime" ||| user !! "lifetime") "0").

(** The test of the "Check if cancelled" branch. *)
Definition isCancelled (user : Row) : bool :=
  String.eqb (user_status user) "cancelled"
  || String.eqb (user_status user) "churned"
  || JS.includes (JS.toLowerCase (JS.or_str (user !! "Segment") "")) "churned".

(** ** Reading a payment row (the callback of [payments.filter] and the
    comparator of [userPayments.sort]) *)

Definition payment_email (p : Row) : string :=
  JS.toLowerCase (JS.or_str (p !! "email" ||| p !! "Email") "").

(** [pUserId] is a string already, so [String(pUserId)] is [pUserId]. *)
Definition payment_userId (p : Row) : string :=
  JS.or_str (p !! "User ID" ||| p !! "user_id") "".

Definition payment_amount (p : Row) : JS.number :=
  JS.parseFloat
    (JS.or_str (p !! "Charge Amount" ||| p !! "charge_amount" ||| p !! "amount") "0").

(** The callback of [payments.filter]. *)
Definition payment_filter (email : string) (uscreenId : option string)
    (p : Row) : bool :=
  if JS.le_zero (payment_amount p) then false
  else String.eqb (payment_email p) email
       || String.eqb (payment_userId p) (JS.String_ uscreenId).

(** ** Building the lookup maps (the first loop of [compare]) *)

Definition index_sf (this : DataComparer) (sf : SFRecord) : DataComparer :=
  let this1 :=
    if JS.truthy_value (uscreenMemberId sf) then
      {| sfByUscreenId :=
           <[JS.String_value (uscreenMemberId sf) := sf]> (sfByUscreenId this);
         sfByEmail := sfByEmail this |}
    else this in
  if JS.nonempty (contactEmail sf) then
    {| sfByUscreenId := sfByUscreenId this1;
       sfByEmail := <[JS.toLowerCase (contactEmail sf) := sf]> (sfByEmail this1) |}
  else this1.

(** ** Matching a member (lines 43-46) *)

Definition lookup_sf (this : DataComparer) (uscreenId : option string)
    (email : string) : option SFRecord :=
  match sfByUscreenId this !! JS.String_ uscreenId with
  | Some sf => Some sf
  | None => if JS.nonempty email then sfByEmail this !! email else None
  end.

(** The object literal [findLatestPayment] returns for the row [latest]. *)
Definition latest_payment_of (latest : Row) : LatestPayment :=
  {| lp_email := latest !! "email" ||| latest !! "Email";
     amount := payment_amount latest;
     chargeDate := latest !! "Charge Date" ||| latest !! "charge_date";
     subscription := latest !! "Subscription" ||| latest !! "subscription";
     paymentId := latest !! "Payment ID" ||| latest !! "payment_id" |}.

Section Comparer.

(** [Date.parse]: which strings an engine accepts beyond the ISO forms is
    implementation-defined, so the comparer is embedded over any parser. *)
Variable Date_parse : string -> option Z.

(** [new Date(a['Charge Date'] || a.charge_date || 0)] *)
Definition sort_date (a : Row) : JS.Date :=
  let v := a !! "Charge Date" ||| a !! "charge_date" in
  match v with
  | Some (String c s) => Date_parse (String c s)
  | _ => Some 0
  end.

(** The comparator of [userPayments.sort]: [dateB - dateA]. *)
Definition by_date_desc (a b : Row) : option Z :=
  JS.date_sub (sort_date b) (sort_date a).

Definition findLatestPayment (payments : list Row) (email : string)
    (uscreenId : option string) : option LatestPayment :=
  let userPayments := List.filter (payment_filter email uscreenId) payments in
  if (length userPayments =? 0)%nat then None
  else
    match JS.sort by_date_desc userPayments with
    | latest :: _ => Some (latest_payment_of latest)
    | [] => None
    end.

(** [v ? new Date(v) : null] *)
Definition date_or_null (v : option string) : option JS.Date :=
  match v with
  | Some (String c s) => Some (Date_parse (String c s))
  | _ => None
  end.

(** The body of the loop over [uscreenUsers]. *)
Definition process_user (this : DataComparer) (uscreenPayments : list Row)
    (results : Results) (user : Row) : Results :=
  let uscreenId := user_uscreenId user in
  let email := user_email user in
  let status := user_status user in
  let lifetime := user_lifetime user in
  match lookup_sf this uscreenId email with
  | Some sfRecord =>
      let matchData :=
        {| uscreenUser := user; sfRecord := sfRecord;
           uscreenId := uscreenId; email := email |} in
      let results := push_matched results matchData in
      let results :=
        if isCancelled user then
          push_cancelled results
            {| c_matchData := matchData;
               previousStatus := uscreenSubscriptionStatus sfRecord;
               newStatus := "cancelled" |}
        else results in
      match findLatestPayment uscreenPayments email uscreenId with
      | Some latestPayment =>
          let sfLastPaymentDate :=
            date_or_null (uscreenLastPaymentDate sfRecord) in
          let uscreenPaymentDate :=
            date_or_null (chargeDate latestPayment) in
          match uscreenPaymentDate with
          | Some paymentDate =>
              if match sfLastPaymentDate with
                 | None => true
                 | Some sfDate => JS.date_gt paymentDate sfDate
                 end
              then
                push_needsUpdate results
                  {| n_matchData := matchData;
                     latestPayment := latestPayment;
                     sfLastPaymentDate := sfLastPaymentDate;
                     n_uscreenLastPaymentDate := paymentDate |}
              else results
          | None => results
          end
      | None => results
      end
  | None =>
      if JS.gt_zero lifetime then
        push_newUsers results
          {| nu_uscreenUser := user; nu_uscreenId := uscreenId;
             nu_email := email; lifetime := lifetime; status := status |}
      else
        push_noMatch results
          {| nm_uscreenUser := user; nm_uscreenId := uscreenId;
             nm_email := email; reason := "No SF match, $0 lifetime" |}
  end.

(** [compare(uscreenData, sfData)]: the instance after the call, and the
    results returned. *)
Definition compare (this : DataComparer) (uscreenData : UscreenData)
    (sfData : list SFRecord) : DataComparer * Results :=
  let this' := foldl index_sf this sfData in
  (this',
   foldl (process_user this' (payments uscreenData)) empty_results
     (users uscreenData)).

End Comparer.

(* ===================================================================== *)
(** * Vocabulary of the statements                                        *)
(* ===================================================================== *)

(** [matchData] as [compare] builds it for [user] once [sf] is found. *)
Definition match_data (user : Row) (sf : SFRecord) : MatchData :=
  {| uscreenUser := user; sfRecord := sf;
     uscreenId := user_uscreenId user; email := user_email user |}.

(** Bucket-wise concatenation of two results. *)
Definition append_results (r d : Results) : Results :=
  {| matched := matched r ++ matched d;
     needsUpdate := needsUpdate r ++ needsUpdate d;
     newUsers := newUsers r ++ newUsers d;
     cancelled := cancelled r ++ cancelled d;
     noMatch := noMatch r ++ noMatch d |}.

(** The target record [sf] carries the id key [k] / the email key [k]: it is
    written under [k] by the indexing loop. *)
Definition has_id_key (k : string) (sf : SFRecord) : bool :=
  JS.truthy_value (uscreenMemberId sf)
  && String.eqb (JS.String_value (uscreenMemberId sf)) k.

Definition has_email_key (k : string) (sf : SFRecord) : bool :=
  JS.nonempty (contactEmail sf)
  && String.eqb (JS.toLowerCase (contactEmail sf)) k.

(** The member [user] has an entry in a bucket. *)
Definition in_matched (r : Results) (user : Row) : Prop :=
  exists m, In m (matched r) /\ uscreenUser m = user.

Definition in_newUsers (r : Results) (user : Row) : Prop :=
  exists e, In e (newUsers r) /\ nu_uscreenUser e = user.

Definition in_noMatch (r : Results) (user : Row) : Prop :=
  exists e, In e (noMatch r) /\ nm_uscreenUser e = user.

Definition in_cancelled (r : Results) (user : Row) : Prop :=
  exists e, In e (cancelled r) /\ uscreenUser (c_matchData e) = user.

Definition in_needsUpdate (r : Results) (user : Row) : Prop :=
  exists e, In e (needsUpdate r) /\ uscreenUser (n_matchData e) = user.

(** The update test of [compare] for a found [latestPayment]: its charge date
    is truthy, and the target has no last payment date or an earlier one. *)
Definition update_due (Date_parse : string -> option Z) (sf : SFRecord)
    (lp : LatestPayment) : bool :=
  match date_or_null Date_parse (chargeDate lp) with
  | Some paymentDate =>
      match date_or_null Date_parse (uscreenLastPaymentDate sf) with
      | None => true
      | Some sfDate => JS.date_gt paymentDate sfDate
      end
  | None => false
  end.

(** [user] is matched to [sf] and to nothing else. *)
Definition matched_to (r : Results) (user : Row) (sf : SFRecord) : Prop :=
  In (match_data user sf) (matched r) /\
  forall m, In m (matched r) -> uscreenUser m = user -> m = match_data user sf.

(** The payment row has no truthy charge date / has one that parses. *)
Definition has_no_date (p : Row) : Prop :=
  JS.truthy (p !! "Charge Date" ||| p !! "charge_date") = false.

Definition has_parseable_date (Date_parse : string -> option Z) (p : Row) : Prop :=
  exists s t, p !! "Charge Date" ||| p !! "charge_date" = Some s /\
              JS.nonempty s = true /\ Date_parse s = Some t.

(** [t] occurs in [s]: the meaning of [s.includes(t)]. *)
Definition contains (s t : string) : Prop :=
  exists pre post, s = pre +:+ t +:+ post.

(* ===================================================================== *)
(** * Sample records                                                      *)
(* ===================================================================== *)

Module Sample.

Definition target (id : string) (mail : string) (member : JS.value)
    (st date : option string) : SFRecord :=
  {| sfId := id; contactEmail := mail; uscreenMemberId := member;
     uscreenSubscriptionStatus := st; uscreenLastPaymentDate := date |}.

Definition data (us ps : list Row) : UscreenData :=
  {| users := us; payments := ps |}.

(** [compare] on a fresh instance, with the ISO date-only parser. *)
Definition run (us ps : list Row) (ts : list SFRecord) : Results :=
  snd (compare JS.parse_iso_date new_DataComparer (data us ps) ts).

(** The end-to-end scenario: member 7, last synced on 2024-01-01, paid on
    2024-02-01. *)
Definition u7 : Row :=
  {[ "User ID" := "7"; "email" := "b@y.com"; "Status" := "active";
     "Lifetime" := "100" ]}.
Definition t7 : SFRecord :=
  target "a07" "" (JS.str "7") (Some "active") (Some "2024-01-01").
Definition t7_synced : SFRecord :=
  target "a07" "" (JS.str "7") (Some "active") (Some "2024-02-01").
Definition t7_nodate : SFRecord :=
  target "a07" "" (JS.str "7") (Some "active") None.
Definition p7_feb : Row :=
  {[ "User ID" := "7"; "Charge Amount" := "20"; "Charge Date" := "2024-02-01" ]}.

(** Payments of member 7 with a defective field. *)
Definition p7_baddate : Row :=
  {[ "User ID" := "7"; "Charge Amount" := "20"; "Charge Date" := "abc" ]}.
Definition p7_nodate : Row :=
  {[ "User ID" := "7"; "Charge Amount" := "20" ]}.
Definition p7_1969 : Row :=
  {[ "User ID" := "7"; "Charge Amount" := "20"; "Charge Date" := "1969-12-31" ]}.
Definition p7_badamount : Row :=
  {[ "User ID" := "7"; "Charge Amount" := "abc"; "Charge Date" := "2024-02-01" ]}.

(** The cancellation scenario: member 8. *)
Definition u8 : Row := {[ "User ID" := "8"; "Status" := "Cancelled" ]}.
Definition t8 : SFRecord := target "a08" "" (JS.str "8") (Some "active") None.
Definition p8_feb : Row :=
  {[ "User ID" := "8"; "Charge Amount" := "20"; "Charge Date" := "2024-02-01" ]}.

(** Id precedence: the member's email belongs to another target. *)
Definition u123 : Row := {[ "User ID" := "123"; "email" := "m@x.com" ]}.
Definition t123 : SFRecord :=
  target "a123" "other@y.com" (JS.str "123") None None.
Definition t999 : SFRecord :=
  target "a999" "m@x.com" (JS.str "999") None None.

(** Email fallback: no id on the member, upper-case email on the target. *)
Definition u_a : Row := {[ "User ID" := ""; "email" := "a@x.com" ]}.
Definition t_A : SFRecord := target "a55" "A@X.COM" (JS.str "55") None None.

(** Two targets under the same id text, one stored as a number. *)
Definition t7_first : SFRecord := target "first" "" (JS.num 7) None None.
Definition t7_second : SFRecord := target "second" "" (JS.str "7") None None.

(** A member and a payment with no email, and different user ids. *)
Definition u5 : Row := {[ "User ID" := "5" ]}.
Definition p6 : Row := {[ "User ID" := "6"; "Charge Amount" := "10" ]}.

End Sample.

(* ===================================================================== *)
(** * The callers: Salesforce client, sheets client, scraper              *)
(* ===================================================================== *)

(** A Program Role with every field some module reads: the comparer's
    [SFRecord] and the two more that the sheets client prints. *)
Record ProgramRole : Type := {
  role : SFRecord;
  name : option string;
  active : bool
}.

(** ** [SalesforceClient.getProgramRoles]: the transform to a flat structure *)

Module Salesforce.

(** [Contact__r] of a query record; its own [Name] is [Contact_Name] here. *)
Record Contact : Type := {
  Email : option string;
  Contact_Name : option string
}.

(** A record of the query result, with the fields that reach a
    [ProgramRole]; [None] is [null]. *)
Record QueryRecord : Type := {
  Id : string;
  Name : option string;
  Contact__r : option Contact;
  Active__c : bool;
  Uscreen_Member_ID__c : JS.value;
  Uscreen_Subscription_Status__c : option string;
  Uscreen_Last_Payment_Date__c : option string
}.

(** [r.Contact__r?.Email || ''] *)
Definition contact_email (r : QueryRecord) : string :=
  JS.or_str (match Contact__r r with Some c => Email c | None => None end) "".

(** The callback of [result.records.map]. *)
Definition flatten (r : QueryRecord) : ProgramRole :=
  {| role :=
       {| sfId := Id r;
          contactEmail := contact_email r;
          uscreenMemberId := Uscreen_Member_ID__c r;
          uscreenSubscriptionStatus := Uscreen_Subscription_Status__c r;
          uscreenLastPaymentDate := Uscreen_Last_Payment_Date__c r |};
     name := Name r;
     active := Active__c r |}.

Definition getProgramRoles (records : list QueryRecord) : list ProgramRole :=
  map flatten records.

End Salesforce.

(** ** [GoogleSheetsClient]: the rows of each tab and the order of the writes *)

Module Sheets.

(** A cell handed to the Sheets API. *)
Inductive cell : Type :=
  | CUndefined
  | CValue (v : JS.value)
  | CNumber (n : JS.number).

Definition CString (s : string) : cell := CValue (JS.str s).

(** A property read put in a cell as it is. *)
Definition cell_of_read (v : option string) : cell :=
  match v with
  | Some s => CString s
  | None => CUndefined
  end.

Definition users_headers : list cell :=
  map CString ["User ID"; "Name"; "Email"; "Status"; "Lifetime"; "Segment";
               "Created Date"; "Sync Time"].

Definition users_row (timestamp : string) (u : Row) : list cell :=
  [ CString (JS.or_str (u !! "User ID" ||| u !! "user_id") "");
    CString (JS.or_str (u !! "User Name" ||| u !! "name") "");
    CString (JS.or_str (u !! "User email" ||| u !! "email") "");
    CString (JS.or_str (u !! "Status" ||| u !! "status") "");
    CString (JS.or_str (u !! "Lifetime" ||| u !! "lifetime") "");
    CString (JS.or_str (u !! "Segment" ||| u !! "segment") "");
    CString (JS.or_str (u !! "Created on date" ||| u !! "created_date") "");
    CString timestamp ].

Definition payments_headers : list cell :=
  map CString ["Email"; "Name"; "Charge Date"; "Amount"; "Subscription";
               "Coupon"; "Payment ID"; "Sync Time"].

(** [payments.filter(p => parseFloat(...) > 0)] of [writeUscreenPayments] *)
Definition paidPayments (payments : list Row) : list Row :=
  List.filter (fun p => JS.gt_zero (payment_amount p)) payments.

Definition payments_row (timestamp : string) (p : Row) : list cell :=
  [ CString (JS.or_str (p !! "Email" ||| p !! "email") "");
    CString (JS.or_str (p !! "Name" ||| p !! "name") "");
    CString (JS.or_str (p !! "Charge Date" ||| p !! "charge_date") "");
    CString (JS.or_str (p !! "Charge Amount" ||| p !! "charge_amount"
                        ||| p !! "amount") "");
    CString (JS.or_str (p !! "Subscription" ||| p !! "subscription") "");
    CString (JS.or_str (p !! "Coupon" ||| p !! "coupon") "");
    CString (JS.or_str (p !! "Payment ID" ||| p !! "payment_id") "");
    CString timestamp ].

Definition sf_headers : list cell :=
  map CString ["SF ID"; "Name"; "Contact Email"; "Uscreen ID"; "Active";
               "Subscription Status"; "Last Payment Date"; "Sync Time"].

Definition sf_row (timestamp : string) (r : ProgramRole) : list cell :=
  [ CString (sfId (role r));
    match name r with Some s => CString s | None => CValue JS.null end;
    CString (contactEmail (role r));
    CValue (uscreenMemberId (role r));
    CString (if active r then "Yes" else "No");
    CString (JS.or_str (uscreenSubscriptionStatus (role r)) "");
    CString (JS.or_str (uscreenLastPaymentDate (role r)) "");
    CString timestamp ].

Definition needsUpdate_headers : list cell :=
  map CString ["SF ID"; "Uscreen ID"; "Email"; "SF Last Payment";
               "New Payment Date"; "New Payment Amount"; "Action"; "Sync Time"].

(** [d.toISOString().split('T')[0]] *)
Definition iso_day (d : JS.Date) : JS.completion string :=
  JS.bind (JS.toISOString d) (fun s => JS.Normal (JS.split_head "T" s)).

(** The callback of [needsUpdate.map]; the cells are evaluated left to right,
    and a [Date] object is truthy whatever its time value. *)
Definition needsUpdate_row (timestamp : string) (r : NeedsUpdateEntry) :
    JS.completion (list cell) :=
  JS.bind
    (match sfLastPaymentDate r with
     | Some d => iso_day d
     | None => JS.Normal ""
     end)
    (fun sfDay =>
       JS.bind (iso_day (n_uscreenLastPaymentDate r))
         (fun day =>
            JS.Normal
              [ CString (sfId (sfRecord (n_matchData r)));
                cell_of_read (uscreenId (n_matchData r));
                CString (email (n_matchData r));
                CString sfDay;
                CString day;
                if JS.truthy_number (amount (latestPayment r))
                then CNumber (amount (latestPayment r)) else CString "";
                CString "UPDATE SF";
                CString timestamp ])).

Definition needsUpdate_rows (timestamp : string)
    (needsUpdate : list NeedsUpdateEntry) : JS.completion (list (list cell)) :=
  JS.map_throwing (needsUpdate_row timestamp) needsUpdate.

Definition newUsers_headers : list cell :=
  map CString ["Uscreen ID"; "Email"; "Name"; "Status"; "Lifetime Amount";
               "Action"; "Sync Time"].

Definition newUsers_row (timestamp : string) (r : NewUserEntry) : list cell :=
  [ cell_of_read (nu_uscreenId r);
    CString (nu_email r);
    CString (JS.or_str (nu_uscreenUser r !! "User Name" ||| nu_uscreenUser r !! "name") "");
    CString (status r);
    CNumber (lifetime r);
    CString "MANUAL REVIEW";
    CString timestamp ].

Definition cancelled_headers : list cell :=
  map CString ["SF ID"; "Uscreen ID"; "Email"; "Previous Status"; "New Status";
               "Action"; "Sync Time"].

Definition cancelled_row (timestamp : string) (r : CancelledEntry) : list cell :=
  [ CString (sfId (sfRecord (c_matchData r)));
    cell_of_read (uscreenId (c_matchData r));
    CString (email (c_matchData r));
    CString (JS.or_str (previousStatus r) "Unknown");
    CString (newStatus r);
    CString "UPDATE STATUS";
    CString timestamp ].

(** The calls made on the Sheets API, in order. *)
Inductive api_call : Type :=
  | Clear (range : string)
  | Update (range : string) (values : list (list cell)).

(** [writeSheet]: clear [A:Z] (a failure of the clear is swallowed), then
    write [[headers, ...rows]] at [A1]. *)
Definition writeSheet (sheetName : string) (headers : list cell)
    (rows : list (list cell)) : list api_call :=
  [Clear (sheetName +:+ "!A:Z"); Update (sheetName +:+ "!A1") (headers :: rows)].

(** The argument of [writeResults]. *)
Record SyncData : Type := {
  uscreenUsers : list Row;
  uscreenPayments : list Row;
  sfData : list ProgramRole;
  comparison : Results
}.

(** [writeResults], for a client that is authenticated and an API that
    answers: the calls made, and how the function completes.  [timestamp] is
    the [new Date().toISOString()] taken on entry. *)
Definition writeResults (timestamp : string) (data : SyncData) :
    list api_call * JS.completion unit :=
  let calls :=
    (writeSheet "Uscreen Users" users_headers
       (map (users_row timestamp) (uscreenUsers data))
     ++ writeSheet "Uscreen Payments" payments_headers
          (map (payments_row timestamp) (paidPayments (uscreenPayments data)))
     ++ writeSheet "Salesforce Data" sf_headers
          (map (sf_row timestamp) (sfData data)))%list in
  match needsUpdate_rows timestamp (needsUpdate (comparison data)) with
  | JS.ThrowRangeError => (calls, JS.ThrowRangeError)
  | JS.Normal rows =>
      ((calls
        ++ writeSheet "Needs Update" needsUpdate_headers rows
        ++ writeSheet "New Users (Review)" newUsers_headers
             (map (newUsers_row timestamp) (newUsers (comparison data)))
        ++ writeSheet "Cancelled" cancelled_headers
             (map (cancelled_row timestamp) (cancelled (comparison data))))%list,
       JS.Normal tt)
  end.

End Sheets.

(** ** [UscreenScraper.downloadExports]: choosing the two CSV files *)

Module Scraper.

Record ExportFiles : Type := {
  users : string;
  payments : string
}.

Section Exports.

(** [path.join] and [fs.statSync(p).mtime], taken as given. *)
Variable path_join : string -> string -> string.
Variable mtime : string -> JS.Date.
Variable downloadPath : string.

(** The comparator of the sort: the later modification time first. *)
Definition newer_first (a b : string) : option Z :=
  JS.date_sub (mtime (path_join downloadPath b)) (mtime (path_join downloadPath a)).

Definition csvFiles (files : list string) : list string :=
  JS.sort newer_first (List.filter (fun f => JS.endsWith f ".csv") files).

(** The object [downloadExports] returns for the directory listing [files]. *)
Definition export_files (files : list string) : ExportFiles :=
  {| users := path_join downloadPath (JS.or_str (csvFiles files !! 0%nat) "users.csv");
     payments :=
       path_join downloadPath (JS.or_str (csvFiles files !! 1%nat) "payments.csv") |}.

End Exports.

End Scraper.

(** ** Vocabulary of the further statements *)

(** The member is found by the lookup of [compare]. *)
Definition found_in (this : DataComparer) (user : Row) : bool :=
  match lookup_sf this (user_uscreenId user) (user_email user) with
  | Some _ => true
  | None => false
  end.

(** [s] ends with [suffix]. *)
Definition has_suffix (s suffix : string) : Prop :=
  exists pre, s = pre +:+ suffix.


(** The entry carries an Invalid Date where [writeNeedsUpdate] formats one. *)
Definition has_invalid_date (e : NeedsUpdateEntry) : Prop :=
  sfLastPaymentDate e = Some None \/ n_uscreenLastPaymentDate e = None.

(** Both dates are valid and [g] is not later than [f]. *)
Definition not_later (g f : JS.Date) : Prop :=
  exists tg tf, g = Some tg /\ f = Some tf /\ tg <= tf.






(** ** [main] of [index.js], after the scrape and the query

    Steps 2 to 4 for the scraped [uscreenData] and the query [records]:
    flatten the records, compare on a fresh [DataComparer], and write the
    tabs unless the run is a dry run. *)

Definition main_comparison (Date_parse : string -> option Z)
    (uscreenData : UscreenData) (records : list Salesforce.QueryRecord) : Results :=
  snd (compare Date_parse new_DataComparer uscreenData
         (map role (Salesforce.getProgramRoles records))).



(* ===================================================================== *)
(** * Built-ins: basic facts                                              *)
(* ===================================================================== *)

Example parseFloat_samples :
  JS.parseFloat "49.99" = JS.Dec 4999 (-2) /\
  JS.parseFloat "  -1.5e3x" = JS.Dec (-15) 2 /\
  JS.parseFloat "0" = JS.Dec 0 0 /\
  JS.parseFloat "abc" = JS.NaN /\
  JS.parseFloat "." = JS.NaN.
Proof. repeat split; reflexivity. Qed.

Example parse_iso_date_samples :
  JS.parse_iso_date "1970-01-01" = Some 0 /\
  JS.parse_iso_date "2024-02-01" = Some 1706745600000 /\
  JS.parse_iso_date "1969-12-31" = Some (-86400000) /\
  JS.parse_iso_date "abc" = None.
Proof. repeat split; reflexivity. Qed.

Example String_value_samples :
  JS.String_value (JS.num 7) = "7" /\ JS.String_value (JS.str "7") = "7" /\
  JS.String_value (JS.num (-12)) = "-12".
Proof. repeat split; reflexivity. Qed.

Lemma or_str_spec (a : option string) (d : string) :
  JS.or_str a d = if JS.truthy a then JS.String_ a else d.
Proof. destruct a as [[|c s]|]; reflexivity. Qed.

Lemma or_str_falsy (a : option string) (d : string) :
  JS.truthy a = false -> JS.or_str a d = d.
Proof. intros H. rewrite or_str_spec, H. reflexivity. Qed.

Lemma or_falsy (a b : option string) :
  JS.truthy a = false -> JS.truthy b = false -> JS.truthy (a ||| b) = false.
Proof. intros Ha Hb. unfold JS.or. rewrite Ha. exact Hb. Qed.

Lemma substring_prefix_app (t post : string) :
  substring 0 (String.length t) (t +:+ post) = t.
Proof.
  induction t as [|c t IH]; simpl.
  - destruct post; reflexivity.
  - f_equal. exact IH.
Qed.

Lemma prefix_app (t post : string) : String.prefix t (t +:+ post) = true.
Proof. apply prefix_correct, substring_prefix_app. Qed.

Lemma prefix_split (t s : string) :
  String.prefix t s = true -> exists post, s = t +:+ post.
Proof.
  revert s. induction t as [|c t IH]; intros s H.
  - exists s. reflexivity.
  - destruct s as [|c' s]; simpl in H; [discriminate|].
    destruct (ascii_dec c c') as [->|]; [|discriminate].
    destruct (IH s H) as [post ->]. exists post. reflexivity.
Qed.

Lemma includes_unfold (s t : string) :
  JS.includes s t =
  String.prefix t s
  || match s with EmptyString => false | String _ s' => JS.includes s' t end.
Proof. destruct s; reflexivity. Qed.

(** [includes] decides [contains]. *)
Lemma includes_contains (s t : string) :
  JS.includes s t = true <-> contains s t.
Proof.
  split.
  - induction s as [|c s IH]; rewrite includes_unfold; intros H;
      apply orb_true_iff in H as [H|H]; try discriminate.
    + apply prefix_split in H as [post ->]. exists "", post. reflexivity.
    + apply prefix_split in H as [post ->]. exists "", post. reflexivity.
    + destruct (IH H) as (pre & post & ->).
      exists (String c pre), post. reflexivity.
  - intros (pre & post & ->). induction pre as [|c pre IH];
      rewrite includes_unfold.
    + change ("" +:+ t +:+ post) with (t +:+ post).
      rewrite prefix_app. reflexivity.
    + change (String c pre +:+ t +:+ post) with (String c (pre +:+ t +:+ post)).
      cbv beta iota. rewrite IH. apply orb_true_r.
Qed.

(* ===================================================================== *)
(** * The indexing loop                                                   *)
(* ===================================================================== *)

Lemma index_sf_id (this : DataComparer) (sf : SFRecord) (k : string) :
  sfByUscreenId (index_sf this sf) !! k =
  if has_id_key k sf then Some sf else sfByUscreenId this !! k.
Proof.
  unfold index_sf, has_id_key.
  destruct (JS.truthy_value (uscreenMemberId sf)) eqn:Ht;
    destruct (JS.nonempty (contactEmail sf)); simpl;
    try reflexivity;
    destruct (String.eqb_spec (JS.String_value (uscreenMemberId sf)) k) as [->|Hne];
    try (apply lookup_insert_eq); apply lookup_insert_ne; exact Hne.
Qed.

Lemma index_sf_email (this : DataComparer) (sf : SFRecord) (k : string) :
  sfByEmail (index_sf this sf) !! k =
  if has_email_key k sf then Some sf else sfByEmail this !! k.
Proof.
  unfold index_sf, has_email_key.
  destruct (JS.truthy_value (uscreenMemberId sf));
    destruct (JS.nonempty (contactEmail sf)); simpl;
    try reflexivity;
    destruct (String.eqb_spec (JS.toLowerCase (contactEmail sf)) k) as [->|Hne];
    try (apply lookup_insert_eq); apply lookup_insert_ne; exact Hne.
Qed.

Lemma foldl_snoc {A B} (f : A -> B -> A) (a : A) (l : list B) (x : B) :
  foldl f a (l ++ [x]) = f (foldl f a l) x.
Proof. rewrite foldl_app. reflexivity. Qed.

Lemma filter_snoc {A} (f : A -> bool) (l : list A) (x : A) :
  List.filter f (l ++ [x]) = (List.filter f l ++ (if f x then [x] else []))%list.
Proof. rewrite List.filter_app. reflexivity. Qed.

(** What a key maps to once [sfData] has been indexed on top of [this]: the
    last record of [sfData] written under it, else what was there before. *)
Lemma build_lookup_id (this : DataComparer) (sfData : list SFRecord) (k : string) :
  sfByUscreenId (foldl index_sf this sfData) !! k =
  match last (List.filter (has_id_key k) sfData) with
  | Some sf => Some sf
  | None => sfByUscreenId this !! k
  end.
Proof.
  induction sfData as [|sf l IH] using rev_ind; [reflexivity|].
  rewrite foldl_snoc, index_sf_id, filter_snoc, last_app.
  destruct (has_id_key k sf); simpl; [reflexivity|exact IH].
Qed.

Lemma build_lookup_email (this : DataComparer) (sfData : list SFRecord) (k : string) :
  sfByEmail (foldl index_sf this sfData) !! k =
  match last (List.filter (has_email_key k) sfData) with
  | Some sf => Some sf
  | None => sfByEmail this !! k
  end.
Proof.
  induction sfData as [|sf l IH] using rev_ind; [reflexivity|].
  rewrite foldl_snoc, index_sf_email, filter_snoc, last_app.
  destruct (has_email_key k sf); simpl; [reflexivity|exact IH].
Qed.

Lemma DataComparer_eq (a b : DataComparer) :
  sfByUscreenId a = sfByUscreenId b -> sfByEmail a = sfByEmail b -> a = b.
Proof. destruct a, b; simpl; intros -> ->; reflexivity. Qed.

(** Indexing the same records a second time changes nothing. *)
Lemma build_idempotent (this : DataComparer) (sfData : list SFRecord) :
  foldl index_sf (foldl index_sf this sfData) sfData = foldl index_sf this sfData.
Proof.
  apply DataComparer_eq; apply map_eq; intros k.
  - rewrite build_lookup_id.
    destruct (last (List.filter (has_id_key k) sfData)) eqn:E; [|reflexivity].
    rewrite build_lookup_id, E. reflexivity.
  - rewrite build_lookup_email.
    destruct (last (List.filter (has_email_key k) sfData)) eqn:E; [|reflexivity].
    rewrite build_lookup_email, E. reflexivity.
Qed.

(* ===================================================================== *)
(** * The classification loop                                             *)
(* ===================================================================== *)

(** Every branch of one iteration, in turn. *)
Ltac step_cases :=
  unfold process_user, update_due;
  repeat match goal with
    | |- context [match ?x with _ => _ end] =>
        lazymatch x with
        | lookup_sf _ _ _ => destruct x
        | findLatestPayment _ _ _ _ => destruct x
        | date_or_null _ _ => destruct x
        | isCancelled _ => destruct x
        | JS.gt_zero _ => destruct x
        | JS.date_gt _ _ => destruct x
        end
    end;
  try match goal with r : Results |- _ => destruct r end;
  unfold append_results; cbn; rewrite ?app_nil_r; reflexivity.

Section Loop.

Variable Date_parse : string -> option Z.
Variable this : DataComparer.
Variable uscreenPayments : list Row.

Local Abbreviation step := (process_user Date_parse this uscreenPayments).

(** One iteration only appends to the buckets. *)
Lemma process_user_append (r : Results) (user : Row) :
  step r user = append_results r (step empty_results user).
Proof. step_cases. Qed.

Lemma step_matched (user : Row) :
  matched (step empty_results user) =
  match lookup_sf this (user_uscreenId user) (user_email user) with
  | Some sf => [match_data user sf]
  | None => []
  end.
Proof. step_cases. Qed.

Lemma step_cancelled (user : Row) :
  cancelled (step empty_results user) =
  match lookup_sf this (user_uscreenId user) (user_email user) with
  | Some sf =>
      if isCancelled user then
        [{| c_matchData := match_data user sf;
            previousStatus := uscreenSubscriptionStatus sf;
            newStatus := "cancelled" |}]
      else []
  | None => []
  end.
Proof. step_cases. Qed.

Lemma step_needsUpdate (user : Row) :
  needsUpdate (step empty_results user) =
  match lookup_sf this (user_uscreenId user) (user_email user),
      findLatestPayment Date_parse uscreenPayments (user_email user)
        (user_uscreenId user) with
  | Some sf, Some lp =>
      if update_due Date_parse sf lp then
        [{| n_matchData := match_data user sf;
            latestPayment := lp;
            sfLastPaymentDate :=
              date_or_null Date_parse (uscreenLastPaymentDate sf);
            n_uscreenLastPaymentDate :=
              match date_or_null Date_parse (chargeDate lp) with
              | Some d => d
              | None => None
              end |}]
      else []
  | _, _ => []
  end.
Proof. step_cases. Qed.

Lemma step_newUsers (user : Row) :
  newUsers (step empty_results user) =
  match lookup_sf this (user_uscreenId user) (user_email user) with
  | Some _ => []
  | None =>
      if JS.gt_zero (user_lifetime user) then
        [{| nu_uscreenUser := user; nu_uscreenId := user_uscreenId user;
            nu_email := user_email user; lifetime := user_lifetime user;
            status := user_status user |}]
      else []
  end.
Proof. step_cases. Qed.

Lemma step_noMatch (user : Row) :
  noMatch (step empty_results user) =
  match lookup_sf this (user_uscreenId user) (user_email user) with
  | Some _ => []
  | None =>
      if JS.gt_zero (user_lifetime user) then []
      else
        [{| nm_uscreenUser := user; nm_uscreenId := user_uscreenId user;
            nm_email := user_email user;
            reason := "No SF match, $0 lifetime" |}]
  end.
Proof. step_cases. Qed.

(** The loop as a whole: each bucket is the concatenation, in input order,
    of what each member contributes. *)
Lemma loop_buckets (us : list Row) (r : Results) :
  foldl step r us =
  append_results r
    {| matched := flat_map (fun u => matched (step empty_results u)) us;
       needsUpdate := flat_map (fun u => needsUpdate (step empty_results u)) us;
       newUsers := flat_map (fun u => newUsers (step empty_results u)) us;
       cancelled := flat_map (fun u => cancelled (step empty_results u)) us;
       noMatch := flat_map (fun u => noMatch (step empty_results u)) us |}.
Proof.
  revert r. induction us as [|u us IH]; intros r.
  - destruct r; unfold append_results; cbn; rewrite ?app_nil_r; reflexivity.
  - cbn [foldl flat_map]. rewrite IH, process_user_append.
    unfold append_results; cbn; rewrite <- ?app_assoc; reflexivity.
Qed.

End Loop.

(* ===================================================================== *)
(** * [compare]: the buckets                                              *)
(* ===================================================================== *)

Section Buckets.

Variable Date_parse : string -> option Z.
Variable this : DataComparer.
Variable uscreenData : UscreenData.
Variable sfData : list SFRecord.

Local Abbreviation idx := (fst (compare Date_parse this uscreenData sfData)).
Local Abbreviation res := (snd (compare Date_parse this uscreenData sfData)).
Local Abbreviation found user :=
  (lookup_sf idx (user_uscreenId user) (user_email user)).
Local Abbreviation latest user :=
  (findLatestPayment Date_parse (payments uscreenData) (user_email user)
     (user_uscreenId user)).

Lemma compare_buckets :
  res =
  let step := process_user Date_parse idx (payments uscreenData) empty_results in
  {| matched := flat_map (fun u => matched (step u)) (users uscreenData);
     needsUpdate := flat_map (fun u => needsUpdate (step u)) (users uscreenData);
     newUsers := flat_map (fun u => newUsers (step u)) (users uscreenData);
     cancelled := flat_map (fun u => cancelled (step u)) (users uscreenData);
     noMatch := flat_map (fun u => noMatch (step u)) (users uscreenData) |}.
Proof. unfold compare. cbn [fst snd]. rewrite loop_buckets. reflexivity. Qed.

Lemma matched_iff (m : MatchData) :
  In m (matched res) <->
  exists user sf, In user (users uscreenData) /\ found user = Some sf /\
                  m = match_data user sf.
Proof.
  rewrite compare_buckets. cbn [matched]. rewrite in_flat_map.
  split.
  - intros (user & Hin & Hm). rewrite step_matched in Hm.
    destruct (lookup_sf _ _ _) as [sf|] eqn:E; [|destruct Hm].
    destruct Hm as [<-|[]]. exists user, sf. auto.
  - intros (user & sf & Hin & E & ->). exists user. split; [exact Hin|].
    rewrite step_matched, E. left. reflexivity.
Qed.

Lemma cancelled_iff (e : CancelledEntry) :
  In e (cancelled res) <->
  exists user sf, In user (users uscreenData) /\ found user = Some sf /\
                  isCancelled user = true /\
                  e = {| c_matchData := match_data user sf;
                         previousStatus := uscreenSubscriptionStatus sf;
                         newStatus := "cancelled" |}.
Proof.
  rewrite compare_buckets. cbn [cancelled]. rewrite in_flat_map.
  split.
  - intros (user & Hin & He). rewrite step_cancelled in He.
    destruct (lookup_sf _ _ _) as [sf|] eqn:E; [|destruct He].
    destruct (isCancelled user) eqn:Ec; [|destruct He].
    destruct He as [<-|[]]. exists user, sf. auto.
  - intros (user & sf & Hin & E & Ec & ->). exists user. split; [exact Hin|].
    rewrite step_cancelled, E, Ec. left. reflexivity.
Qed.

Lemma needsUpdate_iff (e : NeedsUpdateEntry) :
  In e (needsUpdate res) <->
  exists user sf lp, In user (users uscreenData) /\ found user = Some sf /\
    latest user = Some lp /\ update_due Date_parse sf lp = true /\
    n_matchData e = match_data user sf /\ latestPayment e = lp /\
    sfLastPaymentDate e = date_or_null Date_parse (uscreenLastPaymentDate sf) /\
    date_or_null Date_parse (chargeDate lp) = Some (n_uscreenLastPaymentDate e).
Proof.
  rewrite compare_buckets. cbn [needsUpdate]. rewrite in_flat_map.
  split.
  - intros (user & Hin & He). rewrite step_needsUpdate in He.
    destruct (lookup_sf _ _ _) as [sf|] eqn:E; [|destruct He].
    destruct (findLatestPayment _ _ _ _) as [lp|] eqn:El; [|destruct He].
    destruct (update_due Date_parse sf lp) eqn:Eu; [|destruct He].
    destruct He as [<-|[]]. exists user, sf, lp. cbn.
    repeat split; try assumption.
    unfold update_due in Eu.
    destruct (date_or_null Date_parse (chargeDate lp)); [reflexivity|discriminate].
  - intros (user & sf & lp & Hin & E & El & Eu & H1 & H2 & H3 & H4).
    exists user. split; [exact Hin|].
    rewrite step_needsUpdate, E, El, Eu. left.
    destruct e; cbn in *. subst. rewrite H4. reflexivity.
Qed.

Lemma newUsers_iff (e : NewUserEntry) :
  In e (newUsers res) <->
  exists user, In user (users uscreenData) /\ found user = None /\
    JS.gt_zero (user_lifetime user) = true /\ nu_uscreenUser e = user /\
    e = {| nu_uscreenUser := user; nu_uscreenId := user_uscreenId user;
           nu_email := user_email user; lifetime := user_lifetime user;
           status := user_status user |}.
Proof.
  rewrite compare_buckets. cbn [newUsers]. rewrite in_flat_map.
  split.
  - intros (user & Hin & He). rewrite step_newUsers in He.
    destruct (lookup_sf _ _ _) as [sf|] eqn:E; [destruct He|].
    destruct (JS.gt_zero (user_lifetime user)) eqn:Eg; [|destruct He].
    destruct He as [<-|[]]. exists user. auto.
  - intros (user & Hin & E & Eg & _ & ->). exists user. split; [exact Hin|].
    rewrite step_newUsers, E, Eg. left. reflexivity.
Qed.

Lemma noMatch_iff (e : NoMatchEntry) :
  In e (noMatch res) <->
  exists user, In user (users uscreenData) /\ found user = None /\
    JS.gt_zero (user_lifetime user) = false /\ nm_uscreenUser e = user /\
    e = {| nm_uscreenUser := user; nm_uscreenId := user_uscreenId user;
           nm_email := user_email user;
           reason := "No SF match, $0 lifetime" |}.
Proof.
  rewrite compare_buckets. cbn [noMatch]. rewrite in_flat_map.
  split.
  - intros (user & Hin & He). rewrite step_noMatch in He.
    destruct (lookup_sf _ _ _) as [sf|] eqn:E; [destruct He|].
    destruct (JS.gt_zero (user_lifetime user)) eqn:Eg; [destruct He|].
    destruct He as [<-|[]]. exists user. auto.
  - intros (user & Hin & E & Eg & _ & ->). exists user. split; [exact Hin|].
    rewrite step_noMatch, E, Eg. left. reflexivity.
Qed.

(** Bucket membership of a member, by the member's own row. *)
Lemma in_matched_iff (user : Row) :
  in_matched res user <->
  In user (users uscreenData) /\ exists sf, found user = Some sf.
Proof.
  unfold in_matched. split.
  - intros (m & Hm & <-). apply matched_iff in Hm as (u & sf & Hin & E & ->).
    cbn. eauto.
  - intros (Hin & sf & E). exists (match_data user sf). split; [|reflexivity].
    apply matched_iff. eauto.
Qed.

Lemma in_matched_to (user : Row) (sf : SFRecord) :
  In user (users uscreenData) -> found user = Some sf ->
  matched_to res user sf.
Proof.
  intros Hin E. split.
  - apply matched_iff. eauto.
  - intros m Hm Hu. apply matched_iff in Hm as (u & sf' & _ & E' & ->).
    cbn in Hu. subst u. congruence.
Qed.

Lemma in_cancelled_iff (user : Row) :
  in_cancelled res user <->
  In user (users uscreenData) /\ (exists sf, found user = Some sf) /\
  isCancelled user = true.
Proof.
  unfold in_cancelled. split.
  - intros (e & He & <-).
    apply cancelled_iff in He as (u & sf & Hin & E & Ec & ->). cbn. eauto.
  - intros (Hin & (sf & E) & Ec).
    exists {| c_matchData := match_data user sf;
              previousStatus := uscreenSubscriptionStatus sf;
              newStatus := "cancelled" |}.
    split; [apply cancelled_iff; exists user, sf; auto 10|reflexivity].
Qed.

Lemma in_needsUpdate_iff (user : Row) :
  in_needsUpdate res user <->
  In user (users uscreenData) /\
  exists sf lp, found user = Some sf /\ latest user = Some lp /\
                update_due Date_parse sf lp = true.
Proof.
  unfold in_needsUpdate. split.
  - intros (e & He & <-).
    apply needsUpdate_iff in He as (u & sf & lp & Hin & E & El & Eu & -> & _).
    cbn. eauto 10.
  - intros (Hin & sf & lp & E & El & Eu).
    assert (exists d, date_or_null Date_parse (chargeDate lp) = Some d) as [d Hd].
    { unfold update_due in Eu.
      destruct (date_or_null Date_parse (chargeDate lp)); [eauto|discriminate]. }
    exists {| n_matchData := match_data user sf; latestPayment := lp;
              sfLastPaymentDate :=
                date_or_null Date_parse (uscreenLastPaymentDate sf);
              n_uscreenLastPaymentDate := d |}.
    split; [|reflexivity]. apply needsUpdate_iff.
    exists user, sf, lp. cbn. auto 10.
Qed.

Lemma in_newUsers_iff (user : Row) :
  in_newUsers res user <->
  In user (users uscreenData) /\ found user = None /\
  JS.gt_zero (user_lifetime user) = true.
Proof.
  unfold in_newUsers. split.
  - intros (e & He & <-).
    apply newUsers_iff in He as (u & Hin & E & Eg & -> & _). auto.
  - intros (Hin & E & Eg).
    exists {| nu_uscreenUser := user; nu_uscreenId := user_uscreenId user;
              nu_email := user_email user; lifetime := user_lifetime user;
              status := user_status user |}.
    split; [apply newUsers_iff; exists user; auto 10|reflexivity].
Qed.

Lemma in_noMatch_iff (user : Row) :
  in_noMatch res user <->
  In user (users uscreenData) /\ found user = None /\
  JS.gt_zero (user_lifetime user) = false.
Proof.
  unfold in_noMatch. split.
  - intros (e & He & <-).
    apply noMatch_iff in He as (u & Hin & E & Eg & -> & _). auto.
  - intros (Hin & E & Eg).
    exists {| nm_uscreenUser := user; nm_uscreenId := user_uscreenId user;
              nm_email := user_email user;
              reason := "No SF match, $0 lifetime" |}.
    split; [apply noMatch_iff; exists user; auto 10|reflexivity].
Qed.

End Buckets.

(* ===================================================================== *)
(** * [findLatestPayment]                                                 *)
(* ===================================================================== *)

Lemma gt_zero_not_le_zero (n : JS.number) :
  JS.gt_zero n = true -> JS.le_zero n = false.
Proof.
  destruct n as [|[]|m e]; cbn; try discriminate; try reflexivity.
  intros H. apply Z.ltb_lt in H. apply Z.leb_gt. exact H.
Qed.

Lemma date_gt_irrefl (a : JS.Date) : JS.date_gt a a = false.
Proof. destruct a as [t|]; cbn; [apply Z.ltb_irrefl|reflexivity]. Qed.

(** The filter callback, read as a condition. *)
Lemma payment_filter_iff (email : string) (uscreenId : option string) (p : Row) :
  payment_filter email uscreenId p = true <->
  JS.le_zero (payment_amount p) = false /\
  (payment_email p = email \/ payment_userId p = JS.String_ uscreenId).
Proof.
  unfold payment_filter.
  destruct (JS.le_zero (payment_amount p)).
  - split; [discriminate|intros [? _]; discriminate].
  - rewrite orb_true_iff, !String.eqb_eq. tauto.
Qed.

(** For an amount that is a number the filter is the positivity test of the
    payment-qualification rule; only [NaN] escapes it. *)
Lemma payment_filter_number (email : string) (uscreenId : option string)
    (p : Row) :
  JS.isNaN (payment_amount p) = false ->
  (payment_filter email uscreenId p = true <->
   JS.gt_zero (payment_amount p) = true /\
   (payment_email p = email \/ payment_userId p = JS.String_ uscreenId)).
Proof.
  intros Hn. rewrite payment_filter_iff.
  assert (JS.le_zero (payment_amount p) = false <->
          JS.gt_zero (payment_amount p) = true) as ->; [|tauto].
  destruct (payment_amount p) as [|[]|m e]; cbn [JS.le_zero JS.gt_zero negb];
    try discriminate; try tauto.
  - split; discriminate.
  - rewrite Z.leb_gt, Z.ltb_lt. tauto.
Qed.

Section SortFacts.

Context {A : Type} (comparefn : A -> A -> option Z).

Lemma in_insert (x y : A) (l : list A) :
  In y (JS.insert comparefn x l) <-> y = x \/ In y l.
Proof.
  induction l as [|z l IH]; cbn.
  - intuition.
  - destruct (0 <? JS.SortCompare comparefn x z); cbn; rewrite ?IH; intuition.
Qed.

Lemma in_sort (y : A) (l : list A) : In y (JS.sort comparefn l) <-> In y l.
Proof.
  induction l as [|x l IH]; cbn; [tauto|].
  rewrite in_insert, IH. intuition.
Qed.

Lemma sort_nil_inv (l : list A) : JS.sort comparefn l = [] -> l = [].
Proof.
  destruct l as [|x l]; [reflexivity|]. intros H.
  assert (Hin : In x (JS.sort comparefn (x :: l))) by (apply in_sort; left; reflexivity).
  rewrite H in Hin. destruct Hin.
Qed.

End SortFacts.

Section Latest.

Variable Date_parse : string -> option Z.

Local Abbreviation date_of := (sort_date Date_parse).
Local Abbreviation newest_first := (by_date_desc Date_parse).

(** A row with no truthy charge date sorts as the epoch. *)
Lemma sort_date_missing (a : Row) :
  JS.truthy (a !! "Charge Date" ||| a !! "charge_date") = false ->
  date_of a = Some 0.
Proof.
  unfold sort_date.
  destruct (a !! "Charge Date" ||| a !! "charge_date") as [[|c s]|];
    cbn; [reflexivity|discriminate|reflexivity].
Qed.

(** The head of the sorted candidates has no strictly later candidate, as
    long as the comparator never yields [NaN]. *)
Lemma sort_head_latest (l : list Row) (p : Row) :
  Forall (fun q => date_of q <> None) l ->
  head (JS.sort newest_first l) = Some p ->
  In p l /\ Forall (fun q => JS.date_gt (date_of q) (date_of p) = false) l.
Proof.
  intros Hvalid. revert p. induction Hvalid as [|x l Hx Hl IH]; intros p Hp.
  - discriminate.
  - cbn [JS.sort foldr] in Hp. fold (JS.sort newest_first l) in Hp.
    destruct (JS.sort newest_first l) as [|y s] eqn:Es.
    + apply sort_nil_inv in Es. subst l. cbn in Hp. injection Hp as <-.
      split; [left; reflexivity|].
      constructor; [apply date_gt_irrefl|constructor].
    + destruct (IH y eq_refl) as [Hy Hall].
      cbn [JS.insert] in Hp. unfold JS.SortCompare, by_date_desc in Hp.
      destruct (date_of x) as [tx|] eqn:Ex; [|contradiction].
      assert (exists ty, date_of y = Some ty) as [ty Ey].
      { rewrite List.Forall_forall in Hl. specialize (Hl y Hy).
        destruct (date_of y); [eauto|contradiction]. }
      rewrite Ey in Hp, Hall. cbn [JS.date_sub] in Hp.
      destruct (0 <? ty - tx) eqn:Ecmp; cbn in Hp; injection Hp as <-.
      * apply Z.ltb_lt in Ecmp. split; [right; exact Hy|]. rewrite Ey.
        constructor; [|exact Hall].
        rewrite Ex. cbn. apply Z.ltb_ge. lia.
      * apply Z.ltb_ge in Ecmp. split; [left; reflexivity|].
        constructor; [rewrite Ex; apply date_gt_irrefl|].
        rewrite List.Forall_forall in Hall, Hl |- *. intros q Hq.
        specialize (Hall q Hq). specialize (Hl q Hq).
        destruct (date_of q) as [tq|]; [|contradiction].
        rewrite Ex. cbn in Hall |- *. apply Z.ltb_ge in Hall. apply Z.ltb_ge. lia.
Qed.

(** [findLatestPayment] answers [null] exactly when no payment passes the
    filter, and otherwise the object built from the head of the sorted
    candidates. *)
Lemma findLatestPayment_head (payments : list Row) (email : string)
    (uscreenId : option string) :
  findLatestPayment Date_parse payments email uscreenId =
  latest_payment_of <$>
    head (JS.sort newest_first (List.filter (payment_filter email uscreenId) payments)).
Proof.
  unfold findLatestPayment.
  destruct (List.filter (payment_filter email uscreenId) payments) as [|x l] eqn:E.
  - reflexivity.
  - cbn [length Nat.eqb]. destruct (JS.sort _ (x :: l)); reflexivity.
Qed.

Lemma findLatestPayment_None (payments : list Row) (email : string)
    (uscreenId : option string) :
  findLatestPayment Date_parse payments email uscreenId = None <->
  List.filter (payment_filter email uscreenId) payments = [].
Proof.
  rewrite findLatestPayment_head. split.
  - destruct (JS.sort _ _) eqn:E; [|discriminate].
    intros _. eapply sort_nil_inv, E.
  - intros ->. reflexivity.
Qed.

(** Whatever is returned was built from a payment that passed the filter. *)
Lemma findLatestPayment_Some (payments : list Row) (email : string)
    (uscreenId : option string) (lp : LatestPayment) :
  findLatestPayment Date_parse payments email uscreenId = Some lp ->
  exists p, In p payments /\ payment_filter email uscreenId p = true /\
            lp = latest_payment_of p.
Proof.
  rewrite findLatestPayment_head.
  destruct (JS.sort _ _) as [|p s] eqn:E; [discriminate|].
  intros [= <-]. exists p.
  assert (Hin : In p (JS.sort newest_first
                        (List.filter (payment_filter email uscreenId) payments)))
    by (rewrite E; left; reflexivity).
  apply in_sort, filter_In in Hin as [? ?]. auto.
Qed.

(** The part of the payment-qualification claim that the filter does
    enforce: no payment whose amount is a number [<= 0] is ever returned. *)
Lemma findLatestPayment_amount (payments : list Row) (email : string)
    (uscreenId : option string) (lp : LatestPayment) :
  findLatestPayment Date_parse payments email uscreenId = Some lp ->
  JS.le_zero (amount lp) = false.
Proof.
  intros H. apply findLatestPayment_Some in H as (p & _ & Hf & ->).
  apply payment_filter_iff in Hf as [Hf _]. exact Hf.
Qed.

End Latest.

(* ===================================================================== *)
(** * Payment association and selection                                   *)
(* ===================================================================== *)

(** C2, evaluated on a payment whose amount does not parse: [parseFloat]
    yields [NaN], the test [amount <= 0] is false for [NaN], and the payment
    passes the filter and is returned as the member's latest payment, with
    amount [NaN]. *)
Theorem unparseable_amount_qualifies :
  payment_amount Sample.p7_badamount = JS.NaN /\
  JS.gt_zero (payment_amount Sample.p7_badamount) = false /\
  payment_filter (user_email Sample.u7) (user_uscreenId Sample.u7)
    Sample.p7_badamount = true /\
  findLatestPayment JS.parse_iso_date [Sample.p7_badamount]
    (user_email Sample.u7) (user_uscreenId Sample.u7)
  = Some (latest_payment_of Sample.p7_badamount) /\
  amount (latest_payment_of Sample.p7_badamount) = JS.NaN.
Proof. repeat split; vm_compute; reflexivity. Qed.

(** C3, as amended: when no qualifying payment has an unparseable charge
    date (or when there is a single qualifying payment), [findLatestPayment]
    returns the object built from a qualifying payment that no qualifying
    payment is dated strictly after, and [null] exactly when nothing
    qualifies; a payment with no charge date sorts as the epoch, time
    value 0, so when the returned payment has no charge date no qualifying
    payment is dated after the epoch. *)
Theorem findLatestPayment_latest (Date_parse : string -> option Z)
    (payments : list Row) (email : string) (uscreenId : option string) :
  Forall (fun q => sort_date Date_parse q <> None)
    (List.filter (payment_filter email uscreenId) payments)
  \/ length (List.filter (payment_filter email uscreenId) payments) = 1%nat ->
  match findLatestPayment Date_parse payments email uscreenId with
  | Some lp =>
      exists p, In p payments /\ payment_filter email uscreenId p = true /\
        lp = latest_payment_of p /\
        Forall (fun q => JS.date_gt (sort_date Date_parse q)
                           (sort_date Date_parse p) = false)
          (List.filter (payment_filter email uscreenId) payments)
  | None => List.filter (payment_filter email uscreenId) payments = []
  end
  /\ (forall q, has_no_date q -> sort_date Date_parse q = Some 0)
  /\ (forall lp q t,
        findLatestPayment Date_parse payments email uscreenId = Some lp ->
        JS.truthy (chargeDate lp) = false ->
        In q (List.filter (payment_filter email uscreenId) payments) ->
        sort_date Date_parse q = Some t ->
        t <= 0).
Proof.
  intros H.
  assert (Hmain :
    match findLatestPayment Date_parse payments email uscreenId with
    | Some lp =>
        exists p, In p payments /\ payment_filter email uscreenId p = true /\
          lp = latest_payment_of p /\
          Forall (fun q => JS.date_gt (sort_date Date_parse q)
                             (sort_date Date_parse p) = false)
            (List.filter (payment_filter email uscreenId) payments)
    | None => List.filter (payment_filter email uscreenId) payments = []
    end).
  { destruct (findLatestPayment Date_parse payments email uscreenId) as [lp|] eqn:E;
      [|apply findLatestPayment_None in E; exact E].
    rewrite findLatestPayment_head in E.
    destruct (head _) as [p|] eqn:Eh; [|discriminate]. injection E as <-.
    exists p.
    assert (Hin : In p (List.filter (payment_filter email uscreenId) payments)).
    { destruct (JS.sort _ _) as [|p' s] eqn:Es; [discriminate|].
      injection Eh as ->. eapply in_sort. rewrite Es. left. reflexivity. }
    apply filter_In in Hin as Hin'. destruct Hin' as [Hp Hf].
    repeat split; try assumption.
    destruct H as [H|H].
    - eapply sort_head_latest; eassumption.
    - destruct (List.filter _ payments) as [|x [|? ?]]; try discriminate.
      destruct Hin as [->|[]]. constructor; [apply date_gt_irrefl|constructor]. }
  split; [exact Hmain|]. split; [apply sort_date_missing|].
  intros lp q t E Hno Hq Ht. rewrite E in Hmain.
  destruct Hmain as (p & _ & _ & -> & Hall).
  rewrite List.Forall_forall in Hall. specialize (Hall q Hq).
  rewrite (sort_date_missing Date_parse p Hno), Ht in Hall.
  cbn in Hall. apply Z.ltb_ge in Hall. exact Hall.
Qed.

Lemma findLatestPayment_latest_witness :
  Forall (fun q => sort_date JS.parse_iso_date q <> None)
    [Sample.p7_nodate; Sample.p7_feb] /\
  (match findLatestPayment JS.parse_iso_date [Sample.p7_nodate; Sample.p7_feb]
           (user_email Sample.u7) (user_uscreenId Sample.u7) with
   | Some lp =>
       exists p, In p [Sample.p7_nodate; Sample.p7_feb] /\
         payment_filter (user_email Sample.u7) (user_uscreenId Sample.u7) p = true /\
         lp = latest_payment_of p /\
         Forall (fun q => JS.date_gt (sort_date JS.parse_iso_date q)
                            (sort_date JS.parse_iso_date p) = false)
           [Sample.p7_nodate; Sample.p7_feb]
   | None => [Sample.p7_nodate; Sample.p7_feb] = []
   end).
Proof.
  assert (Hvalid : Forall (fun q => sort_date JS.parse_iso_date q <> None)
                     [Sample.p7_nodate; Sample.p7_feb])
    by (repeat constructor; vm_compute; discriminate).
  split; [exact Hvalid|].
  apply (findLatestPayment_latest JS.parse_iso_date
           [Sample.p7_nodate; Sample.p7_feb]
           (user_email Sample.u7) (user_uscreenId Sample.u7)).
  left. exact Hvalid.
Defined.

(** C3 as stated fails: a payment with no charge date sorts as the epoch, so
    it is selected over a qualifying payment dated 1969-12-31, whose date
    parses. *)
Lemma missing_date_beats_earlier_date :
  ~ (forall (payments : list Row) (email : string) (uscreenId : option string)
            (p q : Row),
       In p (List.filter (payment_filter email uscreenId) payments) ->
       In q (List.filter (payment_filter email uscreenId) payments) ->
       has_no_date p ->
       has_parseable_date JS.parse_iso_date q ->
       findLatestPayment JS.parse_iso_date payments email uscreenId
       <> Some (latest_payment_of p)).
Proof.
  intros H.
  apply (H [Sample.p7_nodate; Sample.p7_1969] (user_email Sample.u7)
           (user_uscreenId Sample.u7) Sample.p7_nodate Sample.p7_1969).
  - vm_compute. left. reflexivity.
  - vm_compute. right. left. reflexivity.
  - vm_compute. reflexivity.
  - exists "1969-12-31", (-86400000). repeat split; vm_compute; reflexivity.
  - vm_compute. reflexivity.
Qed.

(** The unparseable case, left out of the amended C3: the comparator yields
    [NaN] against an Invalid Date, which the sort reads as a tie, so the
    payment dated ["abc"] stays ahead of the one dated 2024-02-01. *)
Example unparseable_date_stays_first :
  sort_date JS.parse_iso_date Sample.p7_baddate = None /\
  findLatestPayment JS.parse_iso_date [Sample.p7_baddate; Sample.p7_feb]
    (user_email Sample.u7) (user_uscreenId Sample.u7)
  = Some (latest_payment_of Sample.p7_baddate).
Proof. split; vm_compute; reflexivity. Qed.

(** C10: a member with no email and a payment with no email share the empty
    string as email key, so the payment passes the filter whenever its amount
    is positive, whatever the two user ids are, and the member then has a
    latest payment. *)
Theorem empty_email_is_shared_key (user p : Row) :
  JS.truthy (user !! "email") = false ->
  JS.truthy (user !! "User email") = false ->
  JS.truthy (p !! "email") = false ->
  JS.truthy (p !! "Email") = false ->
  JS.gt_zero (payment_amount p) = true ->
  user_email user = "" /\ payment_email p = "" /\
  payment_filter (user_email user) (user_uscreenId user) p = true /\
  forall Date_parse payments, In p payments ->
    findLatestPayment Date_parse payments (user_email user) (user_uscreenId user)
    <> None.
Proof.
  intros Hu1 Hu2 Hp1 Hp2 Ha.
  assert (Eu : user_email user = "").
  { unfold user_email. rewrite or_str_falsy; [reflexivity|]. apply or_falsy; assumption. }
  assert (Ep : payment_email p = "").
  { unfold payment_email. rewrite or_str_falsy; [reflexivity|]. apply or_falsy; assumption. }
  assert (Ef : payment_filter (user_email user) (user_uscreenId user) p = true).
  { apply payment_filter_iff. split; [apply gt_zero_not_le_zero, Ha|].
    left. congruence. }
  repeat split; try assumption.
  intros Date_parse payments Hin E. apply findLatestPayment_None in E.
  assert (Hin' : In p (List.filter (payment_filter (user_email user)
                                      (user_uscreenId user)) payments))
    by (apply filter_In; auto).
  rewrite E in Hin'. destruct Hin'.
Qed.

Lemma empty_email_is_shared_key_witness :
  payment_userId Sample.p6 <> JS.String_ (user_uscreenId Sample.u5) /\
  payment_filter (user_email Sample.u5) (user_uscreenId Sample.u5) Sample.p6
  = true.
Proof.
  split; [vm_compute; discriminate|].
  apply (empty_email_is_shared_key Sample.u5 Sample.p6); vm_compute; reflexivity.
Defined.

(* ===================================================================== *)
(** * The payment update decision                                         *)
(* ===================================================================== *)

(** The update test, read as a condition on the two date texts. *)
Lemma update_due_iff (Date_parse : string -> option Z) (sf : SFRecord)
    (lp : LatestPayment) :
  update_due Date_parse sf lp = true <->
  exists s, chargeDate lp = Some s /\ JS.nonempty s = true /\
    (JS.truthy (uscreenLastPaymentDate sf) = false \/
     exists s', uscreenLastPaymentDate sf = Some s' /\ JS.nonempty s' = true /\
                JS.date_gt (Date_parse s) (Date_parse s') = true).
Proof.
  unfold update_due, date_or_null.
  destruct (chargeDate lp) as [[|c s]|].
  - split; [discriminate|]. intros (s & [= <-] & H & _). discriminate.
  - destruct (uscreenLastPaymentDate sf) as [[|c' s']|]; cbn.
    + split; [|reflexivity]. intros _. exists (String c s). auto.
    + split.
      * intros H. exists (String c s). repeat split.
        right. exists (String c' s'). auto.
      * intros (s0 & [= <-] & _ & [H|(s1 & [= <-] & _ & H)]);
          [discriminate|exact H].
    + split; [|reflexivity]. intros _. exists (String c s). auto.
  - split; [discriminate|]. intros (s & H & _). discriminate.
Qed.

(** Equal dates never trigger an update. *)
Lemma update_due_equal_dates (Date_parse : string -> option Z) (sf : SFRecord)
    (lp : LatestPayment) (s s' : string) :
  chargeDate lp = Some s -> uscreenLastPaymentDate sf = Some s' ->
  JS.nonempty s' = true -> Date_parse s = Date_parse s' ->
  update_due Date_parse sf lp = false.
Proof.
  intros Hc Hs Hn Heq. unfold update_due, date_or_null. rewrite Hc, Hs.
  destruct s as [|c s]; [reflexivity|]. destruct s' as [|c' s']; [discriminate|].
  rewrite Heq. apply date_gt_irrefl.
Qed.

(** C1, evaluated on a matched member whose only payment carries the charge
    date ["abc"] while the target has no last payment date: the Invalid Date
    object is truthy, so the member is pushed to [needsUpdate] with an
    Invalid Date, although no parsed charge date exists to be later than
    anything. *)
Theorem invalid_charge_date_needs_update :
  sort_date JS.parse_iso_date Sample.p7_baddate = None /\
  matched (Sample.run [Sample.u7] [Sample.p7_baddate] [Sample.t7_nodate])
  = [match_data Sample.u7 Sample.t7_nodate] /\
  needsUpdate (Sample.run [Sample.u7] [Sample.p7_baddate] [Sample.t7_nodate])
  = [{| n_matchData := match_data Sample.u7 Sample.t7_nodate;
        latestPayment := latest_payment_of Sample.p7_baddate;
        sfLastPaymentDate := None;
        n_uscreenLastPaymentDate := None |}].
Proof. repeat split; vm_compute; reflexivity. Qed.

(** The scenarios of the specification evaluate as it says. *)
Example end_to_end_scenario :
  matched (Sample.run [Sample.u7] [Sample.p7_feb] [Sample.t7])
  = [match_data Sample.u7 Sample.t7] /\
  needsUpdate (Sample.run [Sample.u7] [Sample.p7_feb] [Sample.t7])
  = [{| n_matchData := match_data Sample.u7 Sample.t7;
        latestPayment := latest_payment_of Sample.p7_feb;
        sfLastPaymentDate := Some (Some 1704067200000);
        n_uscreenLastPaymentDate := Some 1706745600000 |}] /\
  cancelled (Sample.run [Sample.u7] [Sample.p7_feb] [Sample.t7]) = [] /\
  newUsers (Sample.run [Sample.u7] [Sample.p7_feb] [Sample.t7]) = [] /\
  noMatch (Sample.run [Sample.u7] [Sample.p7_feb] [Sample.t7]) = [].
Proof. repeat split; vm_compute; reflexivity. Qed.

(** An unmatched member goes to [noMatch] with lifetime 0 and to [newUsers]
    with lifetime 49.99. *)
Example new_or_noMatch_boundary :
  length (noMatch (Sample.run [{[ "User ID" := "1"; "Lifetime" := "0" ]}] [] []))
  = 1%nat /\
  length (newUsers (Sample.run [{[ "User ID" := "1"; "Lifetime" := "0" ]}] [] []))
  = 0%nat /\
  length (newUsers (Sample.run [{[ "User ID" := "1"; "Lifetime" := "49.99" ]}] [] []))
  = 1%nat /\
  length (noMatch (Sample.run [{[ "User ID" := "1"; "Lifetime" := "49.99" ]}] [] []))
  = 0%nat.
Proof. repeat split; vm_compute; reflexivity. Qed.

Example already_synced_scenario :
  needsUpdate (Sample.run [Sample.u7] [Sample.p7_feb] [Sample.t7_synced]) = [].
Proof. vm_compute. reflexivity. Qed.

(* ===================================================================== *)
(** * Partition and subsets                                               *)
(* ===================================================================== *)

Lemma partition_count (Date_parse : string -> option Z) (this : DataComparer)
    (ps us : list Row) :
  (length (flat_map (fun u => matched (process_user Date_parse this ps empty_results u)) us)
   + length (flat_map (fun u => newUsers (process_user Date_parse this ps empty_results u)) us)
   + length (flat_map (fun u => noMatch (process_user Date_parse this ps empty_results u)) us)
   = length us)%nat.
Proof.
  induction us as [|u us IH]; [reflexivity|].
  cbn [flat_map]. rewrite !length_app, step_matched, step_newUsers, step_noMatch.
  destruct (lookup_sf this (user_uscreenId u) (user_email u));
    [|destruct (JS.gt_zero (user_lifetime u))]; cbn [length]; lia.
Qed.

(** C5: the three buckets [matched], [newUsers] and [noMatch] partition the
    members: their sizes add up to the number of members, every member has
    an entry in one of them, every entry is a member, and no member has
    entries in two of them. *)
Theorem compare_partition (Date_parse : string -> option Z)
    (this : DataComparer) (uscreenData : UscreenData) (sfData : list SFRecord) :
  (length (matched (snd (compare Date_parse this uscreenData sfData)))
   + length (newUsers (snd (compare Date_parse this uscreenData sfData)))
   + length (noMatch (snd (compare Date_parse this uscreenData sfData)))
   = length (users uscreenData))%nat
  /\ (forall user,
        In user (users uscreenData) <->
        in_matched (snd (compare Date_parse this uscreenData sfData)) user
        \/ in_newUsers (snd (compare Date_parse this uscreenData sfData)) user
        \/ in_noMatch (snd (compare Date_parse this uscreenData sfData)) user)
  /\ (forall user,
        ~ (in_matched (snd (compare Date_parse this uscreenData sfData)) user
           /\ in_newUsers (snd (compare Date_parse this uscreenData sfData)) user))
  /\ (forall user,
        ~ (in_matched (snd (compare Date_parse this uscreenData sfData)) user
           /\ in_noMatch (snd (compare Date_parse this uscreenData sfData)) user))
  /\ (forall user,
        ~ (in_newUsers (snd (compare Date_parse this uscreenData sfData)) user
           /\ in_noMatch (snd (compare Date_parse this uscreenData sfData)) user)).
Proof.
  split; [rewrite compare_buckets; apply partition_count|].
  split; [|repeat split]; intros user;
    rewrite ?in_matched_iff, ?in_newUsers_iff, ?in_noMatch_iff.
  - split.
    + intros Hin.
      destruct (lookup_sf _ (user_uscreenId user) (user_email user)) as [sf|];
        [left; eauto|].
      destruct (JS.gt_zero (user_lifetime user)); auto.
    + intros [[? _]|[[? _]|[? _]]]; assumption.
  - intros [(_ & sf & E) (_ & E' & _)]. congruence.
  - intros [(_ & sf & E) (_ & E' & _)]. congruence.
  - intros [(_ & _ & E) (_ & _ & E')]. congruence.
Qed.

(** C6: every [needsUpdate] entry and every [cancelled] entry carries the
    [matchData] of an entry of [matched]; and a matched member can be in
    both of the two buckets, in either one alone, or in neither. *)
Theorem needsUpdate_cancelled_within_matched :
  (forall Date_parse this uscreenData sfData,
     (forall e, In e (needsUpdate (snd (compare Date_parse this uscreenData sfData))) ->
                In (n_matchData e)
                  (matched (snd (compare Date_parse this uscreenData sfData))))
     /\ (forall e, In e (cancelled (snd (compare Date_parse this uscreenData sfData))) ->
                   In (c_matchData e)
                     (matched (snd (compare Date_parse this uscreenData sfData)))))
  /\ (in_needsUpdate (Sample.run [Sample.u8] [Sample.p8_feb] [Sample.t8]) Sample.u8
      /\ in_cancelled (Sample.run [Sample.u8] [Sample.p8_feb] [Sample.t8]) Sample.u8)
  /\ (in_needsUpdate (Sample.run [Sample.u7] [Sample.p7_feb] [Sample.t7]) Sample.u7
      /\ ~ in_cancelled (Sample.run [Sample.u7] [Sample.p7_feb] [Sample.t7]) Sample.u7)
  /\ (~ in_needsUpdate (Sample.run [Sample.u8] [] [Sample.t8]) Sample.u8
      /\ in_cancelled (Sample.run [Sample.u8] [] [Sample.t8]) Sample.u8)
  /\ (in_matched (Sample.run [Sample.u7] [] [Sample.t7]) Sample.u7
      /\ ~ in_needsUpdate (Sample.run [Sample.u7] [] [Sample.t7]) Sample.u7
      /\ ~ in_cancelled (Sample.run [Sample.u7] [] [Sample.t7]) Sample.u7).
Proof.
  split.
  { intros Date_parse this uscreenData sfData. split; intros e He.
    - apply needsUpdate_iff in He as (u & sf & lp & Hin & E & _ & _ & -> & _).
      apply matched_iff. eauto.
    - apply cancelled_iff in He as (u & sf & Hin & E & _ & ->).
      apply matched_iff. cbn. eauto. }
  unfold Sample.run.
  split; [split|split; [split|split; [split|split; [|split]]]];
    rewrite ?in_needsUpdate_iff, ?in_cancelled_iff, ?in_matched_iff.
  - split; [left; reflexivity|].
    exists Sample.t8, (latest_payment_of Sample.p8_feb).
    split; [|split]; vm_compute; reflexivity.
  - split; [left; reflexivity|].
    split; [exists Sample.t8|]; vm_compute; reflexivity.
  - split; [left; reflexivity|].
    exists Sample.t7, (latest_payment_of Sample.p7_feb).
    split; [|split]; vm_compute; reflexivity.
  - intros (_ & _ & H). vm_compute in H. discriminate.
  - intros (_ & sf & lp & _ & H & _). vm_compute in H. discriminate.
  - split; [left; reflexivity|].
    split; [exists Sample.t8|]; vm_compute; reflexivity.
  - split; [left; reflexivity|]. exists Sample.t7. vm_compute. reflexivity.
  - intros (_ & sf & lp & _ & H & _). vm_compute in H. discriminate.
  - intros (_ & _ & H). vm_compute in H. discriminate.
Qed.

Lemma needsUpdate_cancelled_within_matched_witness :
  In (match_data Sample.u8 Sample.t8)
    (matched (Sample.run [Sample.u8] [Sample.p8_feb] [Sample.t8])).
Proof.
  destruct needsUpdate_cancelled_within_matched as [H _].
  destruct (H JS.parse_iso_date new_DataComparer
              (Sample.data [Sample.u8] [Sample.p8_feb]) [Sample.t8]) as [_ Hc].
  apply (Hc {| c_matchData := match_data Sample.u8 Sample.t8;
               previousStatus := Some "active"; newStatus := "cancelled" |}).
  vm_compute. left. reflexivity.
Defined.

(* ===================================================================== *)
(** * Matching                                                            *)
(* ===================================================================== *)

(** C7: the id map is read first, under the text of the member's id, and a
    hit decides the match whatever the email maps to; after a miss the email
    map is read, under the lowercased email, only if that email is not
    empty; with no hit the member is not matched.  The two scenarios of the
    claim follow: id wins over an email that belongs to another target, and
    an id-less member with email a@x.com reaches the target whose email is
    A@X.COM. *)
Theorem match_id_then_email :
  (forall Date_parse this uscreenData sfData user,
     In user (users uscreenData) ->
     match sfByUscreenId (fst (compare Date_parse this uscreenData sfData))
             !! JS.String_ (user_uscreenId user) with
     | Some sf => matched_to (snd (compare Date_parse this uscreenData sfData)) user sf
     | None =>
         if JS.nonempty (user_email user) then
           match sfByEmail (fst (compare Date_parse this uscreenData sfData))
                   !! user_email user with
           | Some sf =>
               matched_to (snd (compare Date_parse this uscreenData sfData)) user sf
           | None =>
               ~ in_matched (snd (compare Date_parse this uscreenData sfData)) user
           end
         else ~ in_matched (snd (compare Date_parse this uscreenData sfData)) user
     end)
  /\ (sfByEmail (fst (compare JS.parse_iso_date new_DataComparer
                        (Sample.data [Sample.u123] []) [Sample.t123; Sample.t999]))
        !! user_email Sample.u123 = Some Sample.t999
      /\ matched (Sample.run [Sample.u123] [] [Sample.t123; Sample.t999])
         = [match_data Sample.u123 Sample.t123])
  /\ (user_uscreenId Sample.u_a = None
      /\ user_email Sample.u_a = "a@x.com"
      /\ contactEmail Sample.t_A = "A@X.COM"
      /\ matched (Sample.run [Sample.u_a] [] [Sample.t_A])
         = [match_data Sample.u_a Sample.t_A]).
Proof.
  split.
  { intros Date_parse this uscreenData sfData user Hin.
    pose proof (in_matched_to Date_parse this uscreenData sfData user) as Hto.
    pose proof (in_matched_iff Date_parse this uscreenData sfData user) as Hiff.
    unfold lookup_sf in Hto, Hiff.
    destruct (sfByUscreenId _ !! JS.String_ (user_uscreenId user)) as [sf|];
      [apply Hto; auto|].
    destruct (JS.nonempty (user_email user)).
    - destruct (sfByEmail _ !! user_email user) as [sf|]; [apply Hto; auto|].
      intros H. apply Hiff in H as (_ & sf & H). discriminate.
    - intros H. apply Hiff in H as (_ & sf & H). discriminate. }
  split; [split|split; [|split; [|split]]]; vm_compute; reflexivity.
Qed.

Lemma match_id_then_email_witness :
  matched_to (Sample.run [Sample.u123] [] [Sample.t123; Sample.t999])
    Sample.u123 Sample.t123.
Proof.
  destruct match_id_then_email as [H _].
  specialize (H JS.parse_iso_date new_DataComparer
                (Sample.data [Sample.u123] []) [Sample.t123; Sample.t999]
                Sample.u123).
  assert (E : sfByUscreenId
                (fst (compare JS.parse_iso_date new_DataComparer
                        (Sample.data [Sample.u123] [])
                        [Sample.t123; Sample.t999]))
              !! JS.String_ (user_uscreenId Sample.u123) = Some Sample.t123)
    by (vm_compute; reflexivity).
  rewrite E in H. apply H. left. reflexivity.
Defined.

(** C8: after the indexing loop a key of either map holds the last record of
    [sfData] written under it (a record is written under the text of its
    truthy member id, and under its lowercased non-empty email), and only
    when [sfData] has none does an entry of the instance survive; a member
    whose id text, or whose email after an id miss, is such a key is matched
    to that last record. *)
Theorem index_last_write_wins (Date_parse : string -> option Z)
    (this : DataComparer) (uscreenData : UscreenData) (sfData : list SFRecord) :
  (forall k,
     sfByUscreenId (fst (compare Date_parse this uscreenData sfData)) !! k =
     match last (List.filter (has_id_key k) sfData) with
     | Some sf => Some sf
     | None => sfByUscreenId this !! k
     end)
  /\ (forall k,
        sfByEmail (fst (compare Date_parse this uscreenData sfData)) !! k =
        match last (List.filter (has_email_key k) sfData) with
        | Some sf => Some sf
        | None => sfByEmail this !! k
        end)
  /\ (forall user sf,
        In user (users uscreenData) ->
        last (List.filter (has_id_key (JS.String_ (user_uscreenId user))) sfData)
        = Some sf ->
        matched_to (snd (compare Date_parse this uscreenData sfData)) user sf)
  /\ (forall user sf,
        In user (users uscreenData) ->
        sfByUscreenId (fst (compare Date_parse this uscreenData sfData))
          !! JS.String_ (user_uscreenId user) = None ->
        JS.nonempty (user_email user) = true ->
        last (List.filter (has_email_key (user_email user)) sfData) = Some sf ->
        matched_to (snd (compare Date_parse this uscreenData sfData)) user sf).
Proof.
  split; [intros k; apply build_lookup_id|].
  split; [intros k; apply build_lookup_email|].
  split.
  - intros user sf Hin Hlast. apply in_matched_to; [exact Hin|].
    unfold lookup_sf. cbn [compare fst]. rewrite build_lookup_id, Hlast.
    reflexivity.
  - intros user sf Hin Hmiss Hne Hlast. apply in_matched_to; [exact Hin|].
    unfold lookup_sf. rewrite Hmiss, Hne. cbn [compare fst].
    rewrite build_lookup_email, Hlast. reflexivity.
Qed.

Lemma index_last_write_wins_witness :
  JS.String_value (uscreenMemberId Sample.t7_first)
  = JS.String_value (uscreenMemberId Sample.t7_second) /\
  matched_to (Sample.run [Sample.u7] [] [Sample.t7_first; Sample.t7_second])
    Sample.u7 Sample.t7_second.
Proof.
  split; [vm_compute; reflexivity|].
  destruct (index_last_write_wins JS.parse_iso_date new_DataComparer
              (Sample.data [Sample.u7] [])
              [Sample.t7_first; Sample.t7_second]) as (_ & _ & H & _).
  apply H; [left; reflexivity|vm_compute; reflexivity].
Defined.

(* ===================================================================== *)
(** * Cancellation                                                        *)
(* ===================================================================== *)

Lemma isCancelled_iff (user : Row) :
  isCancelled user = true <->
  user_status user = "cancelled" \/ user_status user = "churned"
  \/ contains (JS.toLowerCase (JS.or_str (user !! "Segment") "")) "churned".
Proof.
  unfold isCancelled.
  rewrite !orb_true_iff, !String.eqb_eq, includes_contains. tauto.
Qed.

(** C9: a matched member is in [cancelled] exactly when its lowercased
    status is "cancelled" or "churned" or its lowercased [Segment] text
    contains "churned", a condition on the member's row alone; and every
    [cancelled] entry extends an entry of [matched] with the
    [uscreenSubscriptionStatus] of its target as [previousStatus] and
    "cancelled" as [newStatus]. *)
Theorem cancelled_iff_status_or_segment (Date_parse : string -> option Z)
    (this : DataComparer) (uscreenData : UscreenData) (sfData : list SFRecord)
    (user : Row) :
  in_matched (snd (compare Date_parse this uscreenData sfData)) user ->
  (in_cancelled (snd (compare Date_parse this uscreenData sfData)) user <->
   user_status user = "cancelled" \/ user_status user = "churned"
   \/ contains (JS.toLowerCase (JS.or_str (user !! "Segment") "")) "churned")
  /\ (forall e,
        In e (cancelled (snd (compare Date_parse this uscreenData sfData))) ->
        In (c_matchData e)
          (matched (snd (compare Date_parse this uscreenData sfData)))
        /\ previousStatus e = uscreenSubscriptionStatus (sfRecord (c_matchData e))
        /\ newStatus e = "cancelled").
Proof.
  intros Hm. apply in_matched_iff in Hm as [Hin Hsf]. split.
  - rewrite in_cancelled_iff, isCancelled_iff. tauto.
  - intros e He. apply cancelled_iff in He as (u & sf & Hu & E & _ & ->).
    cbn. split; [|auto]. apply matched_iff. eauto.
Qed.

Lemma cancelled_iff_status_or_segment_witness :
  in_matched (Sample.run [Sample.u8] [] [Sample.t8]) Sample.u8 /\
  in_cancelled (Sample.run [Sample.u8] [] [Sample.t8]) Sample.u8 /\
  cancelled (Sample.run [Sample.u8] [] [Sample.t8])
  = [{| c_matchData := match_data Sample.u8 Sample.t8;
        previousStatus := uscreenSubscriptionStatus Sample.t8;
        newStatus := "cancelled" |}].
Proof.
  assert (Hm : in_matched (Sample.run [Sample.u8] [] [Sample.t8]) Sample.u8).
  { exists (match_data Sample.u8 Sample.t8).
    split; [vm_compute; left; reflexivity|reflexivity]. }
  split; [exact Hm|]. split; [|vm_compute; reflexivity].
  apply (cancelled_iff_status_or_segment JS.parse_iso_date new_DataComparer
           (Sample.data [Sample.u8] []) [Sample.t8] Sample.u8 Hm).
  left. vm_compute. reflexivity.
Defined.

(* ===================================================================== *)
(** * The instance across invocations                                     *)
(* ===================================================================== *)

Lemma last_filter_None {A} (f : A -> bool) (l : list A) :
  last (List.filter f l) = None -> forall x, In x l -> f x = false.
Proof.
  intros H x Hin. destruct (f x) eqn:E; [|reflexivity].
  assert (Hx : In x (List.filter f l)) by (apply filter_In; auto).
  destruct (List.filter f l) as [|y l'] using rev_ind; [destruct Hx|].
  rewrite last_snoc in H. discriminate.
Qed.

(** An instance whose keys are all rewritten by [sfData] indexes like a fresh
    one. *)
Lemma build_covered (this : DataComparer) (sfData : list SFRecord) :
  (forall k, is_Some (sfByUscreenId this !! k) ->
             exists sf, In sf sfData /\ has_id_key k sf = true) ->
  (forall k, is_Some (sfByEmail this !! k) ->
             exists sf, In sf sfData /\ has_email_key k sf = true) ->
  foldl index_sf this sfData = foldl index_sf new_DataComparer sfData.
Proof.
  intros Hid Hemail. apply DataComparer_eq; apply map_eq; intros k.
  - rewrite !build_lookup_id.
    destruct (last (List.filter (has_id_key k) sfData)) eqn:E; [reflexivity|].
    cbn. rewrite lookup_empty.
    destruct (sfByUscreenId this !! k) eqn:Ek; [|reflexivity].
    destruct (Hid k) as (sf & Hin & Hk); [eauto|].
    rewrite (last_filter_None _ _ E sf Hin) in Hk. discriminate.
  - rewrite !build_lookup_email.
    destruct (last (List.filter (has_email_key k) sfData)) eqn:E; [reflexivity|].
    cbn. rewrite lookup_empty.
    destruct (sfByEmail this !! k) eqn:Ek; [|reflexivity].
    destruct (Hemail k) as (sf & Hin & Hk); [eauto|].
    rewrite (last_filter_None _ _ E sf Hin) in Hk. discriminate.
Qed.

(** C4, as amended: the result of [compare] is a function of its inputs and
    of the two maps the instance holds when it is called.  Calling again on
    the same instance with the same inputs returns the same result and
    leaves the maps as they were; entries already in the maps stay readable
    after a call; and when every key the instance holds is rewritten by
    [sfData] (as on a fresh instance, which holds none) the call behaves as
    on a fresh instance. *)
Theorem compare_depends_on_instance (Date_parse : string -> option Z)
    (this : DataComparer) (uscreenData : UscreenData) (sfData : list SFRecord) :
  compare Date_parse (fst (compare Date_parse this uscreenData sfData))
    uscreenData sfData
  = compare Date_parse this uscreenData sfData
  /\ (forall k, is_Some (sfByUscreenId this !! k) ->
        is_Some (sfByUscreenId (fst (compare Date_parse this uscreenData sfData)) !! k))
  /\ (forall k, is_Some (sfByEmail this !! k) ->
        is_Some (sfByEmail (fst (compare Date_parse this uscreenData sfData)) !! k))
  /\ ((forall k, is_Some (sfByUscreenId this !! k) ->
                 exists sf, In sf sfData /\ has_id_key k sf = true) ->
      (forall k, is_Some (sfByEmail this !! k) ->
                 exists sf, In sf sfData /\ has_email_key k sf = true) ->
      compare Date_parse this uscreenData sfData
      = compare Date_parse new_DataComparer uscreenData sfData).
Proof.
  split; [|split; [|split]].
  - unfold compare. cbn [fst]. rewrite build_idempotent. reflexivity.
  - intros k Hk. cbn [compare fst]. rewrite build_lookup_id.
    destruct (last _); [eauto|exact Hk].
  - intros k Hk. cbn [compare fst]. rewrite build_lookup_email.
    destruct (last _); [eauto|exact Hk].
  - intros Hid Hemail. unfold compare.
    rewrite (build_covered this sfData Hid Hemail). reflexivity.
Qed.

Lemma compare_depends_on_instance_witness :
  compare JS.parse_iso_date
    (fst (compare JS.parse_iso_date new_DataComparer
            (Sample.data [] []) [Sample.t7]))
    (Sample.data [Sample.u7] [Sample.p7_feb]) [Sample.t7_synced]
  = compare JS.parse_iso_date new_DataComparer
      (Sample.data [Sample.u7] [Sample.p7_feb]) [Sample.t7_synced].
Proof.
  apply (compare_depends_on_instance JS.parse_iso_date
           (fst (compare JS.parse_iso_date new_DataComparer
                   (Sample.data [] []) [Sample.t7]))
           (Sample.data [Sample.u7] [Sample.p7_feb]) [Sample.t7_synced]).
  - intros k Hk. exists Sample.t7_synced. split; [left; reflexivity|].
    cbn [compare fst] in Hk. rewrite build_lookup_id in Hk.
    change (has_id_key k Sample.t7_synced) with (has_id_key k Sample.t7).
    change (List.filter (has_id_key k) [Sample.t7])
      with (if has_id_key k Sample.t7 then [Sample.t7] else []) in Hk.
    destruct (has_id_key k Sample.t7); [reflexivity|].
    cbn [last] in Hk. unfold new_DataComparer in Hk.
    cbn [sfByUscreenId sfByEmail] in Hk. rewrite lookup_empty in Hk.
    destruct Hk as [? Hk]. discriminate.
  - intros k Hk. cbn [compare fst] in Hk. rewrite build_lookup_email in Hk.
    change (List.filter (has_email_key k) [Sample.t7]) with (@nil SFRecord) in Hk.
    cbn [last] in Hk. unfold new_DataComparer in Hk.
    cbn [sfByUscreenId sfByEmail] in Hk. rewrite lookup_empty in Hk.
    destruct Hk as [? Hk]. discriminate.
Defined.

(** C4 as stated fails: the maps are created by the constructor and never
    cleared, so a target indexed by an earlier call still matches in a later
    call that passes no targets at all, where a fresh instance matches
    nothing. *)
Lemma earlier_call_leaks_into_later :
  matched (snd (compare JS.parse_iso_date
                  (fst (compare JS.parse_iso_date new_DataComparer
                          (Sample.data [] []) [Sample.t7]))
                  (Sample.data [Sample.u7] []) []))
  = [match_data Sample.u7 Sample.t7]
  /\ matched (snd (compare JS.parse_iso_date new_DataComparer
                     (Sample.data [Sample.u7] []) [])) = []
  /\ snd (compare JS.parse_iso_date
            (fst (compare JS.parse_iso_date new_DataComparer
                    (Sample.data [] []) [Sample.t7]))
            (Sample.data [Sample.u7] []) [])
     <> snd (compare JS.parse_iso_date new_DataComparer
               (Sample.data [Sample.u7] []) []).
Proof.
  split; [vm_compute; reflexivity|]. split; [vm_compute; reflexivity|].
  intros H. apply (f_equal (fun r => length (matched r))) in H.
  vm_compute in H. discriminate.
Qed.

(* ===================================================================== *)
(** * Further properties of [compare]                                     *)
(* ===================================================================== *)

Lemma map_flat_map_filter {A B} (f : A -> list B) (g : B -> A) (h : A -> bool)
    (l : list A) :
  (forall x, map g (f x) = if h x then [x] else []) ->
  map g (flat_map f l) = List.filter h l.
Proof.
  intros Hf. induction l as [|x l IH]; [reflexivity|].
  cbn [flat_map List.filter]. rewrite map_app, Hf, IH.
  destruct (h x); reflexivity.
Qed.

(** X1: each bucket lists its members in input order: projected back to the
    member rows, a bucket is the member list filtered by the test that fills
    it. *)
Theorem buckets_in_input_order (Date_parse : string -> option Z)
    (this : DataComparer) (uscreenData : UscreenData) (sfData : list SFRecord) :
  map uscreenUser (matched (snd (compare Date_parse this uscreenData sfData)))
  = List.filter (found_in (fst (compare Date_parse this uscreenData sfData)))
      (users uscreenData)
  /\ map nu_uscreenUser (newUsers (snd (compare Date_parse this uscreenData sfData)))
     = List.filter
         (fun u => negb (found_in (fst (compare Date_parse this uscreenData sfData)) u)
                   && JS.gt_zero (user_lifetime u))
         (users uscreenData)
  /\ map nm_uscreenUser (noMatch (snd (compare Date_parse this uscreenData sfData)))
     = List.filter
         (fun u => negb (found_in (fst (compare Date_parse this uscreenData sfData)) u)
                   && negb (JS.gt_zero (user_lifetime u)))
         (users uscreenData)
  /\ map (fun e => uscreenUser (c_matchData e))
       (cancelled (snd (compare Date_parse this uscreenData sfData)))
     = List.filter
         (fun u => found_in (fst (compare Date_parse this uscreenData sfData)) u
                   && isCancelled u)
         (users uscreenData)
  /\ map (fun e => uscreenUser (n_matchData e))
       (needsUpdate (snd (compare Date_parse this uscreenData sfData)))
     = List.filter
         (fun u =>
            match lookup_sf (fst (compare Date_parse this uscreenData sfData))
                    (user_uscreenId u) (user_email u),
                  findLatestPayment Date_parse (payments uscreenData)
                    (user_email u) (user_uscreenId u) with
            | Some sf, Some lp => update_due Date_parse sf lp
            | _, _ => false
            end)
         (users uscreenData).
Proof.
  rewrite compare_buckets. cbn [matched newUsers noMatch cancelled needsUpdate].
  repeat apply conj; apply map_flat_map_filter; intros u; unfold found_in.
  - rewrite step_matched. destruct (lookup_sf _ _ _); reflexivity.
  - rewrite step_newUsers. destruct (lookup_sf _ _ _); [reflexivity|].
    destruct (JS.gt_zero _); reflexivity.
  - rewrite step_noMatch. destruct (lookup_sf _ _ _); [reflexivity|].
    destruct (JS.gt_zero _); reflexivity.
  - rewrite step_cancelled. destruct (lookup_sf _ _ _); [|reflexivity].
    destruct (isCancelled u); reflexivity.
  - rewrite step_needsUpdate. destruct (lookup_sf _ _ _); [|reflexivity].
    destruct (findLatestPayment _ _ _ _); [|reflexivity].
    destruct (update_due _ _ _); reflexivity.
Qed.

(** X2: an unmatched member goes to [newUsers] exactly when its parsed lifetime
    is a number above zero; a missing or unparseable lifetime sends it to
    [noMatch]. *)
Theorem unmatched_lifetime_boundary (Date_parse : string -> option Z)
    (this : DataComparer) (uscreenData : UscreenData) (sfData : list SFRecord)
    (user : Row) :
  In user (users uscreenData) ->
  ~ in_matched (snd (compare Date_parse this uscreenData sfData)) user ->
  (in_newUsers (snd (compare Date_parse this uscreenData sfData)) user
   <-> JS.gt_zero (user_lifetime user) = true)
  /\ (in_noMatch (snd (compare Date_parse this uscreenData sfData)) user
      <-> JS.gt_zero (user_lifetime user) = false)
  /\ (JS.truthy (user !! "Lifetime") = false ->
      JS.truthy (user !! "lifetime") = false ->
      in_noMatch (snd (compare Date_parse this uscreenData sfData)) user)
  /\ (JS.isNaN (user_lifetime user) = true ->
      in_noMatch (snd (compare Date_parse this uscreenData sfData)) user).
Proof.
  intros Hin Hnot. rewrite in_matched_iff in Hnot.
  assert (E : lookup_sf (fst (compare Date_parse this uscreenData sfData))
                (user_uscreenId user) (user_email user) = None).
  { destruct (lookup_sf _ _ _) as [sf|] eqn:E; [|reflexivity].
    exfalso. apply Hnot. eauto. }
  rewrite in_newUsers_iff, in_noMatch_iff.
  split; [tauto|]. split; [tauto|]. split.
  - intros H1 H2. repeat split; try assumption.
    unfold user_lifetime. rewrite or_str_falsy; [reflexivity|].
    apply or_falsy; assumption.
  - intros Hn. repeat split; try assumption.
    destruct (user_lifetime user); [reflexivity|discriminate|discriminate].
Qed.

Lemma unmatched_lifetime_boundary_witness :
  in_noMatch (Sample.run [{[ "User ID" := "1"; "Lifetime" := "n/a" ]}] [] [])
    {[ "User ID" := "1"; "Lifetime" := "n/a" ]}.
Proof.
  apply (unmatched_lifetime_boundary JS.parse_iso_date new_DataComparer
           (Sample.data [{[ "User ID" := "1"; "Lifetime" := "n/a" ]}] []) []
           {[ "User ID" := "1"; "Lifetime" := "n/a" ]}).
  - left. reflexivity.
  - intros (m & Hm & _). vm_compute in Hm. exact Hm.
  - vm_compute. reflexivity.
Defined.

Lemma last_filter_Some_In {A} (f : A -> bool) (l : list A) (x : A) :
  last (List.filter f l) = Some x -> In x l /\ f x = true.
Proof.
  intros H. apply filter_In.
  destruct (List.filter f l) as [|y l'] using rev_ind; [discriminate|].
  rewrite last_snoc in H. injection H as ->. apply in_or_app. right. left.
  reflexivity.
Qed.

(** What a hit of the lookup on a freshly built index is backed by. *)
Lemma fresh_lookup_key (sfData : list SFRecord) (uscreenId : option string)
    (email : string) (sf : SFRecord) :
  lookup_sf (foldl index_sf new_DataComparer sfData) uscreenId email = Some sf ->
  In sf sfData
  /\ ((JS.truthy_value (uscreenMemberId sf) = true
       /\ JS.String_value (uscreenMemberId sf) = JS.String_ uscreenId)
      \/ (email <> "" /\ contactEmail sf <> ""
          /\ JS.toLowerCase (contactEmail sf) = email)).
Proof.
  unfold lookup_sf. rewrite build_lookup_id.
  destruct (last (List.filter (has_id_key _) sfData)) as [sf'|] eqn:Eid.
  - intros [= ->]. apply last_filter_Some_In in Eid as [Hsf Hk].
    split; [exact Hsf|]. left. unfold has_id_key in Hk.
    apply andb_true_iff in Hk as [Ht Hk]. apply String.eqb_eq in Hk. auto.
  - cbn. rewrite lookup_empty.
    destruct (JS.nonempty email) eqn:Hne; [|discriminate].
    rewrite build_lookup_email.
    destruct (last (List.filter (has_email_key _) sfData)) as [sf'|] eqn:Eem.
    + intros [= ->]. apply last_filter_Some_In in Eem as [Hsf Hk].
      split; [exact Hsf|]. right. unfold has_email_key in Hk.
      apply andb_true_iff in Hk as [Ht Hk]. apply String.eqb_eq in Hk.
      repeat split.
      * intros H0. rewrite H0 in Hne. discriminate.
      * intros H0. rewrite H0 in Ht. discriminate.
      * exact Hk.
    + cbn. rewrite lookup_empty. discriminate.
Qed.

(** X3: on a fresh instance every match is backed by a shared key: the matched
    target is one of [sfData], and either its truthy member id has the text
    of the member's id, or the member's email is not empty and is the
    lowercased non-empty email of the target.  An absent id or email never
    matches anything. *)
Theorem matched_record_shares_key (Date_parse : string -> option Z)
    (uscreenData : UscreenData) (sfData : list SFRecord) (m : MatchData) :
  In m (matched (snd (compare Date_parse new_DataComparer uscreenData sfData))) ->
  In (uscreenUser m) (users uscreenData)
  /\ In (sfRecord m) sfData
  /\ ((JS.truthy_value (uscreenMemberId (sfRecord m)) = true
       /\ JS.String_value (uscreenMemberId (sfRecord m)) = JS.String_ (uscreenId m))
      \/ (email m <> "" /\ contactEmail (sfRecord m) <> ""
          /\ JS.toLowerCase (contactEmail (sfRecord m)) = email m)).
Proof.
  intros Hm. apply matched_iff in Hm as (u & sf & Hin & E & ->).
  cbn [uscreenUser sfRecord uscreenId email match_data].
  split; [exact Hin|]. cbn [compare fst] in E.
  apply fresh_lookup_key in E. exact E.
Qed.

Lemma matched_record_shares_key_witness :
  In Sample.t_A [Sample.t_A]
  /\ JS.toLowerCase (contactEmail Sample.t_A) = user_email Sample.u_a.
Proof.
  destruct (matched_record_shares_key JS.parse_iso_date
              (Sample.data [Sample.u_a] []) [Sample.t_A]
              (match_data Sample.u_a Sample.t_A)) as (_ & Hin & [[_ H]|(_ & _ & H)]).
  - vm_compute. left. reflexivity.
  - vm_compute in H. discriminate.
  - split; [exact Hin|exact H].
Defined.

(** X4: targets with neither a truthy member id nor a contact email are never
    matched: on a fresh instance, when no target has either, [matched],
    [cancelled] and [needsUpdate] are empty and every member lands in
    [newUsers] or [noMatch]. *)
Theorem keyless_targets_match_nothing (Date_parse : string -> option Z)
    (uscreenData : UscreenData) (sfData : list SFRecord) :
  (forall sf, In sf sfData ->
     JS.truthy_value (uscreenMemberId sf) = false /\ contactEmail sf = "") ->
  matched (snd (compare Date_parse new_DataComparer uscreenData sfData)) = []
  /\ cancelled (snd (compare Date_parse new_DataComparer uscreenData sfData)) = []
  /\ needsUpdate (snd (compare Date_parse new_DataComparer uscreenData sfData)) = []
  /\ (length (newUsers (snd (compare Date_parse new_DataComparer uscreenData sfData)))
      + length (noMatch (snd (compare Date_parse new_DataComparer uscreenData sfData)))
      = length (users uscreenData))%nat.
Proof.
  intros Hkeyless.
  assert (Hm : matched (snd (compare Date_parse new_DataComparer uscreenData sfData)) = []).
  { destruct (matched _) as [|m l] eqn:E; [reflexivity|]. exfalso.
    assert (Hm : In m (matched (snd (compare Date_parse new_DataComparer
                                       uscreenData sfData))))
      by (rewrite E; left; reflexivity).
    apply matched_iff in Hm as (u & sf & _ & Hf & _). cbn [compare fst] in Hf.
    apply fresh_lookup_key in Hf as (Hin & [[Ht _]|(_ & Hne & _)]).
    - destruct (Hkeyless _ Hin) as [Hf _]. congruence.
    - destruct (Hkeyless _ Hin) as [_ He]. congruence. }
  split; [exact Hm|]. split; [|split].
  - destruct (cancelled _) as [|e l] eqn:Ec; [reflexivity|]. exfalso.
    assert (He : In e (cancelled (snd (compare Date_parse new_DataComparer
                                         uscreenData sfData))))
      by (rewrite Ec; left; reflexivity).
    apply cancelled_iff in He as (u & sf & Hin & E & _).
    assert (H : In (match_data u sf)
                  (matched (snd (compare Date_parse new_DataComparer
                                   uscreenData sfData))))
      by (apply matched_iff; eauto).
    rewrite Hm in H. destruct H.
  - destruct (needsUpdate _) as [|e l] eqn:En; [reflexivity|]. exfalso.
    assert (He : In e (needsUpdate (snd (compare Date_parse new_DataComparer
                                           uscreenData sfData))))
      by (rewrite En; left; reflexivity).
    apply needsUpdate_iff in He as (u & sf & lp & Hin & E & _).
    assert (H : In (match_data u sf)
                  (matched (snd (compare Date_parse new_DataComparer
                                   uscreenData sfData))))
      by (apply matched_iff; eauto).
    rewrite Hm in H. destruct H.
  - pose proof (partition_count Date_parse
                  (fst (compare Date_parse new_DataComparer uscreenData sfData))
                  (payments uscreenData) (users uscreenData)) as H.
    rewrite compare_buckets in Hm |- *. cbn [matched newUsers noMatch] in Hm |- *.
    rewrite Hm in H. exact H.
Qed.

Lemma keyless_targets_match_nothing_witness :
  matched (Sample.run [{[ "User ID" := "0" ]}] []
             [Sample.target "a00" "" (JS.num 0) None None]) = [].
Proof.
  apply (keyless_targets_match_nothing JS.parse_iso_date
           (Sample.data [{[ "User ID" := "0" ]}] [])
           [Sample.target "a00" "" (JS.num 0) None None]).
  intros sf [<-|[]]. split; reflexivity.
Defined.

(** When an update is due the target date is absent or a valid date before
    a valid payment date. *)
Lemma update_due_dates (Date_parse : string -> option Z) (sf : SFRecord)
    (lp : LatestPayment) (d : JS.Date) :
  update_due Date_parse sf lp = true ->
  date_or_null Date_parse (chargeDate lp) = Some d ->
  date_or_null Date_parse (uscreenLastPaymentDate sf) = None
  \/ exists s t, date_or_null Date_parse (uscreenLastPaymentDate sf) = Some (Some s)
                 /\ d = Some t /\ s < t.
Proof.
  intros Eu Hd. unfold update_due in Eu. rewrite Hd in Eu.
  destruct (date_or_null Date_parse (uscreenLastPaymentDate sf)) as [sd|];
    [right|left; reflexivity].
  unfold JS.date_gt in Eu.
  destruct d as [t|]; [|discriminate]. destruct sd as [s|]; [|discriminate].
  exists s, t. apply Z.ltb_lt in Eu. auto.
Qed.

(** X5: every [needsUpdate] entry is well formed but for its payment date: its
    [latestPayment] is built from a payment of the input that passes the
    member's filter, has a truthy charge date and an amount that is not a
    number [<= 0], and its [sfLastPaymentDate] is either [null] or a valid
    date strictly before a valid payment date.  So only the payment date of
    an entry whose target has no date can be an Invalid Date. *)
Theorem needsUpdate_entry_shape (Date_parse : string -> option Z)
    (this : DataComparer) (uscreenData : UscreenData) (sfData : list SFRecord)
    (e : NeedsUpdateEntry) :
  In e (needsUpdate (snd (compare Date_parse this uscreenData sfData))) ->
  (exists p, In p (payments uscreenData)
     /\ payment_filter (email (n_matchData e)) (uscreenId (n_matchData e)) p = true
     /\ latestPayment e = latest_payment_of p)
  /\ JS.truthy (chargeDate (latestPayment e)) = true
  /\ JS.le_zero (amount (latestPayment e)) = false
  /\ (sfLastPaymentDate e = None
      \/ exists s t, sfLastPaymentDate e = Some (Some s)
                     /\ n_uscreenLastPaymentDate e = Some t /\ s < t).
Proof.
  intros He.
  apply needsUpdate_iff in He
    as (u & sf & lp & Hin & E & El & Eu & Hm & Hl & Hs & Hd).
  rewrite Hm, Hl, Hs. cbn [email uscreenId match_data].
  split; [eapply findLatestPayment_Some; exact El|].
  split.
  { unfold date_or_null in Hd.
    destruct (chargeDate lp) as [[|c s]|]; try discriminate. reflexivity. }
  split; [eapply findLatestPayment_amount; exact El|].
  exact (update_due_dates Date_parse sf lp _ Eu Hd).
Qed.

Lemma needsUpdate_entry_shape_witness :
  exists s t,
    Some (Some 1704067200000) = Some (Some s) /\ Some 1706745600000 = Some t /\ s < t.
Proof.
  destruct (needsUpdate_entry_shape JS.parse_iso_date new_DataComparer
              (Sample.data [Sample.u7] [Sample.p7_feb]) [Sample.t7]
              {| n_matchData := match_data Sample.u7 Sample.t7;
                 latestPayment := latest_payment_of Sample.p7_feb;
                 sfLastPaymentDate := Some (Some 1704067200000);
                 n_uscreenLastPaymentDate := Some 1706745600000 |})
    as (_ & _ & _ & [H|H]).
  - vm_compute. left. reflexivity.
  - discriminate.
  - exact H.
Defined.

(** X6: re-running against synced data asks for no update: a member whose target
    already records a last payment date that parses to the same instant as
    the charge date of the member's latest payment is not in [needsUpdate]. *)
Theorem synced_member_not_updated (Date_parse : string -> option Z)
    (this : DataComparer) (uscreenData : UscreenData) (sfData : list SFRecord)
    (user : Row) (sf : SFRecord) (lp : LatestPayment) (s s' : string) :
  lookup_sf (fst (compare Date_parse this uscreenData sfData))
    (user_uscreenId user) (user_email user) = Some sf ->
  findLatestPayment Date_parse (payments uscreenData) (user_email user)
    (user_uscreenId user) = Some lp ->
  chargeDate lp = Some s ->
  uscreenLastPaymentDate sf = Some s' ->
  JS.nonempty s' = true ->
  Date_parse s = Date_parse s' ->
  ~ in_needsUpdate (snd (compare Date_parse this uscreenData sfData)) user.
Proof.
  intros E El Hc Hs Hn Heq H.
  apply in_needsUpdate_iff in H as (_ & sf0 & lp0 & E0 & El0 & Eu).
  assert (sf0 = sf) as -> by congruence.
  assert (lp0 = lp) as -> by congruence.
  rewrite (update_due_equal_dates Date_parse sf lp s s' Hc Hs Hn Heq) in Eu.
  discriminate.
Qed.

Lemma synced_member_not_updated_witness :
  ~ in_needsUpdate (Sample.run [Sample.u7] [Sample.p7_feb] [Sample.t7_synced])
      Sample.u7.
Proof.
  apply (synced_member_not_updated JS.parse_iso_date new_DataComparer
           (Sample.data [Sample.u7] [Sample.p7_feb]) [Sample.t7_synced]
           Sample.u7 Sample.t7_synced (latest_payment_of Sample.p7_feb)
           "2024-02-01" "2024-02-01"); vm_compute; reflexivity.
Defined.

Lemma filter_filter_implied {A} (f g : A -> bool) (l : list A) :
  (forall x, f x = true -> g x = true) ->
  List.filter f (List.filter g l) = List.filter f l.
Proof.
  intros Himp. induction l as [|x l IH]; [reflexivity|].
  cbn [List.filter]. destruct (g x) eqn:Eg.
  - cbn [List.filter]. rewrite IH. reflexivity.
  - rewrite IH. destruct (f x) eqn:Ef; [|reflexivity].
    rewrite (Himp x Ef) in Eg. discriminate.
Qed.

Lemma foldl_ext_all {A B} (f g : A -> B -> A) (a : A) (l : list B) :
  (forall a x, f a x = g a x) -> foldl f a l = foldl g a l.
Proof.
  intros H. revert a. induction l as [|x l IH]; intros a; [reflexivity|].
  cbn [foldl]. rewrite H. apply IH.
Qed.

(** X7: payments whose amount is a number [<= 0] (refunds, zero charges, rows
    with no amount) are inert: dropping them from the payment list changes
    nothing in the result of [compare]. *)
Theorem nonpositive_payments_inert (Date_parse : string -> option Z)
    (this : DataComparer) (us ps : list Row) (sfData : list SFRecord) :
  compare Date_parse this
    {| users := us;
       payments := List.filter (fun p => negb (JS.le_zero (payment_amount p))) ps |}
    sfData
  = compare Date_parse this {| users := us; payments := ps |} sfData.
Proof.
  unfold compare. cbn [users payments]. f_equal.
  apply foldl_ext_all. intros r u. unfold process_user.
  rewrite !findLatestPayment_head, filter_filter_implied; [reflexivity|].
  intros p Hp. apply payment_filter_iff in Hp as [Hp _]. rewrite Hp. reflexivity.
Qed.

(** X8: payments bear on [needsUpdate] only: the other four buckets, and the
    maps left on the instance, are the same whatever the payment list. *)
Theorem payments_only_affect_needsUpdate (Date_parse : string -> option Z)
    (this : DataComparer) (us ps ps' : list Row) (sfData : list SFRecord) :
  fst (compare Date_parse this {| users := us; payments := ps |} sfData)
  = fst (compare Date_parse this {| users := us; payments := ps' |} sfData)
  /\ matched (snd (compare Date_parse this {| users := us; payments := ps |} sfData))
     = matched (snd (compare Date_parse this {| users := us; payments := ps' |} sfData))
  /\ cancelled (snd (compare Date_parse this {| users := us; payments := ps |} sfData))
     = cancelled (snd (compare Date_parse this {| users := us; payments := ps' |} sfData))
  /\ newUsers (snd (compare Date_parse this {| users := us; payments := ps |} sfData))
     = newUsers (snd (compare Date_parse this {| users := us; payments := ps' |} sfData))
  /\ noMatch (snd (compare Date_parse this {| users := us; payments := ps |} sfData))
     = noMatch (snd (compare Date_parse this {| users := us; payments := ps' |} sfData)).
Proof.
  split; [reflexivity|].
  rewrite !compare_buckets. cbn [matched cancelled newUsers noMatch users payments].
  repeat apply conj; apply flat_map_ext; intros u.
  - rewrite !step_matched. reflexivity.
  - rewrite !step_cancelled. reflexivity.
  - rewrite !step_newUsers. reflexivity.
  - rewrite !step_noMatch. reflexivity.
Qed.

(** X9: ties go to the earlier row: when the dates of the qualifying payments
    all parse, the payment returned is the first, in input order, of those
    with the latest date. *)
Theorem latest_payment_tie_break (Date_parse : string -> option Z)
    (payments : list Row) (email : string) (uscreenId : option string)
    (before after : list Row) (p : Row) (t : Z) :
  List.filter (payment_filter email uscreenId) payments = (before ++ p :: after)%list ->
  sort_date Date_parse p = Some t ->
  (forall q, In q before -> exists tq, sort_date Date_parse q = Some tq /\ tq < t) ->
  (forall q, In q after -> exists tq, sort_date Date_parse q = Some tq /\ tq <= t) ->
  findLatestPayment Date_parse payments email uscreenId = Some (latest_payment_of p).
Proof.
  intros Hc Hp Hbefore Hafter. rewrite findLatestPayment_head, Hc.
  assert (Hhead : head (JS.sort (by_date_desc Date_parse) (before ++ p :: after))
                  = Some p); [|rewrite Hhead; reflexivity].
  clear Hc. induction before as [|x before IH].
  - cbn [app JS.sort foldr]. fold (JS.sort (by_date_desc Date_parse) after).
    destruct (JS.sort (by_date_desc Date_parse) after) as [|y s] eqn:Es;
      [reflexivity|].
    assert (Hy : In y after) by (eapply in_sort; rewrite Es; left; reflexivity).
    destruct (Hafter y Hy) as (ty & Ey & Hle).
    cbn [JS.insert]. unfold JS.SortCompare, by_date_desc. rewrite Hp, Ey.
    cbn [JS.date_sub]. destruct (0 <? ty - t) eqn:Ecmp; [|reflexivity].
    apply Z.ltb_lt in Ecmp. lia.
  - assert (IH' : head (JS.sort (by_date_desc Date_parse) (before ++ p :: after))
                  = Some p)
      by (apply IH; intros q Hq; apply Hbefore; right; exact Hq).
    cbn [app JS.sort foldr].
    fold (JS.sort (by_date_desc Date_parse) (before ++ p :: after)).
    destruct (JS.sort (by_date_desc Date_parse) (before ++ p :: after))
      as [|y s]; [discriminate|].
    injection IH' as ->.
    destruct (Hbefore x (or_introl eq_refl)) as (tx & Ex & Hlt).
    cbn [JS.insert]. unfold JS.SortCompare, by_date_desc. rewrite Hp, Ex.
    cbn [JS.date_sub]. destruct (0 <? t - tx) eqn:Ecmp; [reflexivity|].
    apply Z.ltb_ge in Ecmp. lia.
Qed.

Lemma latest_payment_tie_break_witness :
  findLatestPayment JS.parse_iso_date
    [Sample.p7_1969; Sample.p7_feb; <["Payment ID" := "second"]> Sample.p7_feb]
    (user_email Sample.u7) (user_uscreenId Sample.u7)
  = Some (latest_payment_of Sample.p7_feb).
Proof.
  apply (latest_payment_tie_break JS.parse_iso_date
           [Sample.p7_1969; Sample.p7_feb; <["Payment ID" := "second"]> Sample.p7_feb]
           (user_email Sample.u7) (user_uscreenId Sample.u7)
           [Sample.p7_1969] [<["Payment ID" := "second"]> Sample.p7_feb]
           Sample.p7_feb 1706745600000).
  - vm_compute. reflexivity.
  - vm_compute. reflexivity.
  - intros q [<-|[]]. exists (-86400000). split; [vm_compute; reflexivity|lia].
  - intros q [<-|[]]. exists 1706745600000. split; [vm_compute; reflexivity|lia].
Defined.

(* ===================================================================== *)
(** * The Salesforce transform                                            *)
(* ===================================================================== *)

(** X10: after the flat transform a role can be matched by email only through a
    contact that has a non-empty email: every match of a sync run goes to the
    flattened form of a query record that either carries the member's id
    text as a truthy member id, or has a [Contact__r] whose [Email], in lower
    case, is the member's non-empty email. *)
Theorem role_matched_by_id_or_contact_email (Date_parse : string -> option Z)
    (uscreenData : UscreenData) (records : list Salesforce.QueryRecord)
    (m : MatchData) :
  In m (matched (main_comparison Date_parse uscreenData records)) ->
  exists r, In r records /\ sfRecord m = role (Salesforce.flatten r)
    /\ ((JS.truthy_value (Salesforce.Uscreen_Member_ID__c r) = true
         /\ JS.String_value (Salesforce.Uscreen_Member_ID__c r)
            = JS.String_ (uscreenId m))
        \/ exists c e, Salesforce.Contact__r r = Some c
             /\ Salesforce.Email c = Some e /\ e <> ""
             /\ JS.toLowerCase e = email m /\ email m <> "").
Proof.
  intros Hm. unfold main_comparison in Hm.
  apply matched_iff in Hm as (u & sf & _ & Hf & ->). cbn [compare fst] in Hf.
  apply fresh_lookup_key in Hf as (Hin & Hkey).
  cbn [sfRecord uscreenId email match_data].
  unfold Salesforce.getProgramRoles in Hin. rewrite map_map in Hin.
  apply in_map_iff in Hin as (r & Hr & Hin). exists r.
  split; [exact Hin|]. split; [symmetry; exact Hr|].
  rewrite <- Hr in Hkey. cbn in Hkey.
  destruct Hkey as [Hid|(Hne & Hce & Hlow)]; [left; exact Hid|right].
  unfold Salesforce.contact_email in Hce, Hlow.
  destruct (Salesforce.Contact__r r) as [c|]; [|contradiction].
  destruct (Salesforce.Email c) as [[|a e]|] eqn:Ee; try contradiction.
  exists c, (String a e).
  split; [reflexivity|]. split; [exact Ee|]. split; [discriminate|].
  split; [exact Hlow|exact Hne].
Qed.

Lemma role_matched_by_id_or_contact_email_witness :
  exists r, In r [ {| Salesforce.Id := "a55"; Salesforce.Name := None;
                      Salesforce.Contact__r :=
                        Some {| Salesforce.Email := Some "A@X.COM";
                                Salesforce.Contact_Name := None |};
                      Salesforce.Active__c := true;
                      Salesforce.Uscreen_Member_ID__c := JS.str "55";
                      Salesforce.Uscreen_Subscription_Status__c := None;
                      Salesforce.Uscreen_Last_Payment_Date__c := None |} ]
    /\ sfRecord (match_data Sample.u_a Sample.t_A) = role (Salesforce.flatten r).
Proof.
  destruct (role_matched_by_id_or_contact_email JS.parse_iso_date
              (Sample.data [Sample.u_a] [])
              [ {| Salesforce.Id := "a55"; Salesforce.Name := None;
                   Salesforce.Contact__r :=
                     Some {| Salesforce.Email := Some "A@X.COM";
                             Salesforce.Contact_Name := None |};
                   Salesforce.Active__c := true;
                   Salesforce.Uscreen_Member_ID__c := JS.str "55";
                   Salesforce.Uscreen_Subscription_Status__c := None;
                   Salesforce.Uscreen_Last_Payment_Date__c := None |} ]
              (match_data Sample.u_a Sample.t_A)) as (r & Hin & Hr & _).
  - vm_compute. left. reflexivity.
  - exists r. split; assumption.
Defined.

(* ===================================================================== *)
(** * The sheets client                                                   *)
(* ===================================================================== *)

(** X11: the Payments tab and the comparer agree on amounts that are numbers: a
    row of the tab always passes the comparer's amount test, and a latest
    payment found by the comparer is built from a row of the tab unless its
    amount is [NaN]. *)
Theorem paid_tab_covers_numeric_latest (Date_parse : string -> option Z)
    (payments : list Row) (email : string) (uscreenId : option string) :
  (forall p, In p (Sheets.paidPayments payments) ->
     In p payments /\ JS.le_zero (payment_amount p) = false)
  /\ (forall lp,
        findLatestPayment Date_parse payments email uscreenId = Some lp ->
        (exists p, In p (Sheets.paidPayments payments) /\ lp = latest_payment_of p)
        \/ amount lp = JS.NaN).
Proof.
  split.
  - intros p Hp. apply filter_In in Hp as [Hin Hg].
    split; [exact Hin|apply gt_zero_not_le_zero, Hg].
  - intros lp H. apply findLatestPayment_Some in H as (p & Hin & Hf & ->).
    apply payment_filter_iff in Hf as [Hle _].
    destruct (payment_amount p) as [|neg|mm ee] eqn:Ea.
    + right. cbn. exact Ea.
    + left. exists p. split; [|reflexivity]. apply filter_In. split; [exact Hin|].
      rewrite Ea. cbn in *. rewrite Hle. reflexivity.
    + left. exists p. split; [|reflexivity]. apply filter_In. split; [exact Hin|].
      rewrite Ea. cbn in *. apply Z.leb_gt in Hle. apply Z.ltb_lt. exact Hle.
Qed.

Lemma iso_day_Normal (d : JS.Date) :
  (exists s, Sheets.iso_day d = JS.Normal s) <-> d <> None.
Proof.
  destruct d as [t|]; cbn.
  - split; [discriminate|eauto].
  - split; [intros [s H]; discriminate|contradiction].
Qed.

Lemma needsUpdate_row_throws (timestamp : string) (e : NeedsUpdateEntry) :
  Sheets.needsUpdate_row timestamp e = JS.ThrowRangeError <-> has_invalid_date e.
Proof.
  unfold Sheets.needsUpdate_row, has_invalid_date.
  destruct (sfLastPaymentDate e) as [[s|]|];
    destruct (n_uscreenLastPaymentDate e) as [t|]; cbn;
    split; try discriminate; try tauto; intros [H|H]; discriminate.
Qed.

Lemma needsUpdate_row_length (timestamp : string) (e : NeedsUpdateEntry)
    (row : list Sheets.cell) :
  Sheets.needsUpdate_row timestamp e = JS.Normal row -> length row = 8%nat.
Proof.
  unfold Sheets.needsUpdate_row.
  destruct (sfLastPaymentDate e) as [[s|]|];
    destruct (n_uscreenLastPaymentDate e) as [t|]; cbn;
    try discriminate; intros [= <-]; reflexivity.
Qed.

(** [writeNeedsUpdate] builds one row of eight cells per entry, and throws
    exactly when an entry carries an Invalid Date. *)
Lemma needsUpdate_rows_spec (timestamp : string) (l : list NeedsUpdateEntry) :
  match Sheets.needsUpdate_rows timestamp l with
  | JS.Normal rows =>
      length rows = length l
      /\ Forall (fun row => length row = 8%nat) rows
      /\ forall e, In e l -> ~ has_invalid_date e
  | JS.ThrowRangeError => exists e, In e l /\ has_invalid_date e
  end.
Proof.
  unfold Sheets.needsUpdate_rows. induction l as [|e l IH]; cbn.
  - repeat split; [constructor|intros e []].
  - destruct (Sheets.needsUpdate_row timestamp e) as [row|] eqn:Er; cbn.
    + destruct (JS.map_throwing _ l) as [rows|]; cbn.
      * destruct IH as (Hlen & Hall & Hvalid). repeat split.
        -- rewrite Hlen. reflexivity.
        -- constructor; [eapply needsUpdate_row_length, Er|exact Hall].
        -- intros e' [<-|He'].
           ++ intros Hinv. apply needsUpdate_row_throws with (timestamp := timestamp) in Hinv.
              congruence.
           ++ apply Hvalid, He'.
      * destruct IH as (e' & He' & Hinv). exists e'. auto.
    + exists e. split; [left; reflexivity|].
      eapply needsUpdate_row_throws, Er.
Qed.

(** X12: on the output of [compare], [writeNeedsUpdate] throws exactly when some
    entry has an Invalid Date as payment date; the target date of an entry
    never makes it throw. *)
Theorem needsUpdate_tab_throws_iff (Date_parse : string -> option Z)
    (this : DataComparer) (uscreenData : UscreenData) (sfData : list SFRecord)
    (timestamp : string) :
  (Sheets.needsUpdate_rows timestamp
     (needsUpdate (snd (compare Date_parse this uscreenData sfData)))
   = JS.ThrowRangeError
   <-> exists e,
         In e (needsUpdate (snd (compare Date_parse this uscreenData sfData)))
         /\ n_uscreenLastPaymentDate e = None)
  /\ (forall rows,
        Sheets.needsUpdate_rows timestamp
          (needsUpdate (snd (compare Date_parse this uscreenData sfData)))
        = JS.Normal rows ->
        length rows
        = length (needsUpdate (snd (compare Date_parse this uscreenData sfData)))).
Proof.
  pose proof (needsUpdate_rows_spec timestamp
                (needsUpdate (snd (compare Date_parse this uscreenData sfData)))) as H.
  split; [split|].
  - intros Ht. rewrite Ht in H. destruct H as (e & He & [Hinv|Hinv]); [|eauto].
    exfalso.
    apply needsUpdate_iff in He as (u & sf & lp & _ & _ & _ & Eu & _ & _ & Hs & Hd).
    destruct (update_due_dates Date_parse sf lp _ Eu Hd) as [H0|(s & t & H0 & _)];
      congruence.
  - intros (e & He & Hnone).
    destruct (Sheets.needsUpdate_rows _ _) as [rows|]; [|reflexivity].
    destruct H as (_ & _ & Hvalid). exfalso. apply (Hvalid e He). right. exact Hnone.
  - intros rows Hr. rewrite Hr in H. apply H.
Qed.



(** X14: every table handed to the API is rectangular: in each update that
    [writeResults] makes, all rows have as many cells as the header row. *)
Theorem written_tables_are_rectangular (timestamp : string)
    (data : Sheets.SyncData) (range : string)
    (values : list (list Sheets.cell)) :
  In (Sheets.Update range values) (fst (Sheets.writeResults timestamp data)) ->
  exists headers rows, values = headers :: rows
    /\ Forall (fun row => length row = length headers) rows.
Proof.
  pose proof (needsUpdate_rows_spec timestamp
                (needsUpdate (Sheets.comparison data))) as H.
  unfold Sheets.writeResults, Sheets.writeSheet.
  destruct (Sheets.needsUpdate_rows timestamp _) as [rows|]; cbn [fst];
    intros Hin; rewrite ?in_app_iff in Hin; cbn [In] in Hin;
    repeat match type of Hin with
      | _ \/ _ => destruct Hin as [Hin|Hin]
      | False => destruct Hin
      | Sheets.Clear _ = _ => discriminate Hin
      end;
    injection Hin as _ <-; eexists _, _; (split; [reflexivity|]);
    try (apply Forall_map, Forall_true; intros x; reflexivity).
  destruct H as (_ & Hall & _). exact Hall.
Qed.

Lemma written_tables_are_rectangular_witness :
  exists headers rows,
    Sheets.cancelled_headers
    :: map (Sheets.cancelled_row "now") (cancelled (Sample.run [Sample.u8] [] [Sample.t8]))
    = headers :: rows
    /\ Forall (fun row => length row = length headers) rows.
Proof.
  apply (written_tables_are_rectangular "now"
           {| Sheets.uscreenUsers := [Sample.u8];
              Sheets.uscreenPayments := [];
              Sheets.sfData := [];
              Sheets.comparison := Sample.run [Sample.u8] [] [Sample.t8] |}
           "Cancelled!A1").
  vm_compute. do 11 right. left. reflexivity.
Defined.

(* ===================================================================== *)
(** * [main]                                                              *)
(* ===================================================================== *)



(** X16: the Email cell of the Users tab reads [User email] before [email],
    the comparer [email] before [User email]; the Payments tab reads [Email]
    before [email], the comparer the reverse.  The tab shows the email the
    comparer matches on, up to case, whenever only one of the two columns is
    filled or both hold the same text. *)
Theorem tab_email_is_match_email (timestamp : string) (row : Row) :
  ((JS.truthy (row !! "email") = false \/ JS.truthy (row !! "User email") = false
    \/ row !! "email" = row !! "User email") ->
   exists s, Sheets.users_row timestamp row !! 2%nat = Some (Sheets.CString s)
             /\ JS.toLowerCase s = user_email row)
  /\ ((JS.truthy (row !! "email") = false \/ JS.truthy (row !! "Email") = false
       \/ row !! "email" = row !! "Email") ->
      exists s, Sheets.payments_row timestamp row !! 0%nat = Some (Sheets.CString s)
                /\ JS.toLowerCase s = payment_email row).
Proof.
  split; intros H; eexists; (split; [reflexivity|]);
    unfold user_email, payment_email, JS.or; f_equal.
  - destruct (row !! "email") as [[|c s]|], (row !! "User email") as [[|c' s']|];
      cbn in *; try reflexivity;
      destruct H as [H|[H|H]]; try discriminate; congruence.
  - destruct (row !! "email") as [[|c s]|], (row !! "Email") as [[|c' s']|];
      cbn in *; try reflexivity;
      destruct H as [H|[H|H]]; try discriminate; congruence.
Qed.

Lemma tab_email_is_match_email_witness :
  exists s, Sheets.users_row "now" Sample.u7 !! 2%nat = Some (Sheets.CString s)
            /\ JS.toLowerCase s = user_email Sample.u7.
Proof.
  apply (tab_email_is_match_email "now" Sample.u7).
  right. left. vm_compute. reflexivity.
Defined.

(** Without that condition the two can differ. *)
Example tab_email_can_differ :
  Sheets.users_row "now" {[ "email" := "a@x.com"; "User email" := "b@y.com" ]} !! 2%nat
  = Some (Sheets.CString "b@y.com")
  /\ user_email {[ "email" := "a@x.com"; "User email" := "b@y.com" ]} = "a@x.com".
Proof. split; vm_compute; reflexivity. Qed.

(* ===================================================================== *)
(** * The scraper: choosing the export files                              *)
(* ===================================================================== *)

Lemma endsWith_unfold (s suffix : string) :
  JS.endsWith s suffix =
  String.eqb s suffix
  || match s with EmptyString => false | String _ s' => JS.endsWith s' suffix end.
Proof. destruct s; reflexivity. Qed.

(** [endsWith] decides [has_suffix]. *)
Lemma endsWith_has_suffix (s suffix : string) :
  JS.endsWith s suffix = true <-> has_suffix s suffix.
Proof.
  split.
  - induction s as [|c s IH]; rewrite endsWith_unfold; intros H;
      apply orb_true_iff in H as [H|H]; try discriminate.
    + apply String.eqb_eq in H as <-. exists "". reflexivity.
    + apply String.eqb_eq in H as <-. exists "". reflexivity.
    + destruct (IH H) as [pre ->]. exists (String c pre). reflexivity.
  - intros [pre ->]. induction pre as [|c pre IH]; rewrite endsWith_unfold.
    + change ("" +:+ suffix) with suffix. rewrite String.eqb_refl. reflexivity.
    + change (String c pre +:+ suffix) with (String c (pre +:+ suffix)).
      cbv beta iota. rewrite IH. apply orb_true_r.
Qed.

Section SortedByDate.

Context {A : Type} (key : A -> JS.Date).

Local Abbreviation later_first := (fun a b : A => JS.date_sub (key b) (key a)).

Lemma length_insert_sorted (x : A) (l : list A) :
  length (JS.insert later_first x l) = S (length l).
Proof.
  induction l as [|y l IH]; [reflexivity|]. cbn [JS.insert].
  destruct (0 <? _); cbn [length]; [rewrite IH|]; reflexivity.
Qed.

Lemma length_sort (l : list A) : length (JS.sort later_first l) = length l.
Proof.
  induction l as [|x l IH]; [reflexivity|].
  cbn [JS.sort foldr]. fold (JS.sort later_first l).
  rewrite length_insert_sorted, IH. reflexivity.
Qed.

Lemma insert_strongly_sorted (x : A) (l : list A) :
  key x <> None -> Forall (fun y => key y <> None) l ->
  StronglySorted (fun a b => not_later (key b) (key a)) l ->
  StronglySorted (fun a b => not_later (key b) (key a))
    (JS.insert later_first x l).
Proof.
  intros Hx Hl Hs. induction Hs as [|y l Hs IH Hy]; cbn [JS.insert].
  - repeat constructor.
  - apply List.Forall_cons_iff in Hl as [Hvy Hl].
    assert (exists tx, key x = Some tx) as [tx Ex]
      by (destruct (key x); [eauto|contradiction]).
    assert (exists ty, key y = Some ty) as [ty Ey]
      by (destruct (key y); [eauto|contradiction]).
    unfold JS.SortCompare. rewrite Ex, Ey. cbn [JS.date_sub].
    destruct (0 <? ty - tx) eqn:Ecmp.
    + apply Z.ltb_lt in Ecmp. constructor; [apply IH, Hl|].
      apply List.Forall_forall. intros z Hz. apply in_insert in Hz as [->|Hz].
      * rewrite Ex, Ey. exists tx, ty. repeat split. lia.
      * rewrite List.Forall_forall in Hy. apply Hy, Hz.
    + apply Z.ltb_ge in Ecmp. constructor; [constructor; assumption|].
      constructor.
      * rewrite Ex, Ey. exists ty, tx. repeat split. lia.
      * rewrite List.Forall_forall in Hy |- *. intros z Hz.
        destruct (Hy z Hz) as (tz & ty' & Hz1 & Hz2 & Hle).
        rewrite Ey in Hz2. injection Hz2 as <-.
        rewrite Ex. exists tz, tx. repeat split; [exact Hz1|lia].
Qed.

(** With valid dates throughout, the sort puts the later dates first. *)
Lemma sort_strongly_sorted (l : list A) :
  Forall (fun y => key y <> None) l ->
  StronglySorted (fun a b => not_later (key b) (key a)) (JS.sort later_first l).
Proof.
  induction 1 as [|x l Hx Hl IH]; [constructor|].
  cbn [JS.sort foldr]. fold (JS.sort later_first l).
  apply insert_strongly_sorted; [exact Hx| |exact IH].
  apply List.Forall_forall. intros y Hy. apply in_sort in Hy.
  rewrite List.Forall_forall in Hl. apply Hl, Hy.
Qed.

End SortedByDate.

(** X17: the export files are the two most recently modified [.csv] files of the
    download folder, the newest taken as the users export: with no such file
    both default names are used, with a single one it is taken as the users
    export whatever it holds, and with two or more the users file is a
    newest [.csv] and the payments file a newest of the remaining ones. *)
Theorem export_files_newest_csv (path_join : string -> string -> string)
    (mtime : string -> JS.Date) (downloadPath : string) (files : list string) :
  (forall f, In f files -> JS.endsWith f ".csv" = true ->
             mtime (path_join downloadPath f) <> None) ->
  match List.filter (fun f => JS.endsWith f ".csv") files with
  | [] =>
      Scraper.export_files path_join mtime downloadPath files
      = {| Scraper.users := path_join downloadPath "users.csv";
           Scraper.payments := path_join downloadPath "payments.csv" |}
  | [f] =>
      Scraper.export_files path_join mtime downloadPath files
      = {| Scraper.users := path_join downloadPath f;
           Scraper.payments := path_join downloadPath "payments.csv" |}
  | _ :: _ :: _ =>
      exists f0 f1,
        Scraper.export_files path_join mtime downloadPath files
        = {| Scraper.users := path_join downloadPath f0;
             Scraper.payments := path_join downloadPath f1 |}
        /\ In f0 files /\ has_suffix f0 ".csv"
        /\ In f1 files /\ has_suffix f1 ".csv"
        /\ (forall g, In g files -> has_suffix g ".csv" ->
              not_later (mtime (path_join downloadPath g))
                (mtime (path_join downloadPath f0)))
        /\ (forall g, In g files -> has_suffix g ".csv" -> g <> f0 ->
              not_later (mtime (path_join downloadPath g))
                (mtime (path_join downloadPath f1)))
  end.
Proof.
  intros Hvalid.
  assert (Hall : Forall (fun f => mtime (path_join downloadPath f) <> None)
                   (List.filter (fun f => JS.endsWith f ".csv") files)).
  { apply List.Forall_forall. intros f Hf. apply filter_In in Hf as [Hin Hc].
    apply Hvalid; assumption. }
  assert (Hne : forall f, JS.endsWith f ".csv" = true ->
                          forall d, JS.or_str (Some f) d = f).
  { intros f Hf d. destruct f; [discriminate|reflexivity]. }
  assert (Hsorted :
    StronglySorted
      (fun a b => not_later (mtime (path_join downloadPath b))
                    (mtime (path_join downloadPath a)))
      (Scraper.csvFiles path_join mtime downloadPath files)).
  { unfold Scraper.csvFiles, Scraper.newer_first.
    apply (sort_strongly_sorted (fun f => mtime (path_join downloadPath f))), Hall. }
  assert (Hlen : length (Scraper.csvFiles path_join mtime downloadPath files)
                 = length (List.filter (fun f => JS.endsWith f ".csv") files)).
  { unfold Scraper.csvFiles, Scraper.newer_first.
    apply (length_sort (fun f => mtime (path_join downloadPath f))). }
  assert (Hmem : forall g, In g (Scraper.csvFiles path_join mtime downloadPath files)
                           <-> In g files /\ JS.endsWith g ".csv" = true).
  { intros g. unfold Scraper.csvFiles. rewrite in_sort, filter_In. tauto. }
  unfold Scraper.export_files.
  destruct (Scraper.csvFiles path_join mtime downloadPath files) as [|f0 [|f1 rest]]
    eqn:Ecsv;
    destruct (List.filter (fun f => JS.endsWith f ".csv") files) as [|a [|b l]]
      eqn:Ef; try discriminate Hlen.
  - reflexivity.
  - assert (In f0 [a]) as [->|[]].
    { rewrite <- Ef. apply filter_In, Hmem. left. reflexivity. }
    change ([f0] !! 0%nat) with (Some f0).
    change ([f0] !! 1%nat) with (@None string).
    rewrite Hne; [reflexivity|].
    apply (Hmem f0). left. reflexivity.
  - exists f0, f1.
    destruct (Hmem f0) as [[Hin0 Hc0] _]; [left; reflexivity|].
    destruct (Hmem f1) as [[Hin1 Hc1] _]; [right; left; reflexivity|].
    change ((f0 :: f1 :: rest) !! 0%nat) with (Some f0).
    change ((f0 :: f1 :: rest) !! 1%nat) with (Some f1).
    rewrite !Hne by assumption.
    split; [reflexivity|].
    split; [exact Hin0|]. split; [apply endsWith_has_suffix, Hc0|].
    split; [exact Hin1|]. split; [apply endsWith_has_suffix, Hc1|].
    apply StronglySorted_inv in Hsorted as [Hs1 H0].
    apply StronglySorted_inv in Hs1 as [_ H1].
    rewrite List.Forall_forall in H0, H1, Hall.
    assert (Hself : forall g, In g files -> JS.endsWith g ".csv" = true ->
              not_later (mtime (path_join downloadPath g))
                        (mtime (path_join downloadPath g))).
    { intros g Hg Hc. specialize (Hvalid g Hg Hc).
      destruct (mtime (path_join downloadPath g)) as [t|]; [|contradiction].
      exists t, t. repeat split. lia. }
    split.
    + intros g Hg Hs. apply endsWith_has_suffix in Hs.
      destruct (Hmem g) as [_ Hback]. destruct (Hback (conj Hg Hs)) as [<-|Hrest].
      * apply Hself; assumption.
      * apply H0, Hrest.
    + intros g Hg Hs Hneq. apply endsWith_has_suffix in Hs.
      destruct (Hmem g) as [_ Hback].
      destruct (Hback (conj Hg Hs)) as [<-|[<-|Hrest]].
      * contradiction.
      * apply Hself; assumption.
      * apply H1, Hrest.
Qed.

Lemma export_files_newest_csv_witness :
  Scraper.export_files (fun d f => d +:+ "/" +:+ f)
    (fun p => Some (Z.of_nat (String.length p))) "downloads"
    ["a.csv"; "notes.txt"; "sales.csv"]
  = {| Scraper.users := "downloads/sales.csv";
       Scraper.payments := "downloads/a.csv" |}.
Proof.
  destruct (export_files_newest_csv (fun d f => d +:+ "/" +:+ f)
              (fun p => Some (Z.of_nat (String.length p))) "downloads"
              ["a.csv"; "notes.txt"; "sales.csv"]) as (f0 & f1 & H & _).
  - intros f _ _. discriminate.
  - vm_compute. reflexivity.
Defined.

(* ===================================================================== *)
(** * Dates: from the export text to the tab and back                     *)
(* ===================================================================== *)














Lemma or_str_nonempty (a : option string) (d : string) :
  d <> "" -> JS.or_str a d <> "".
Proof. intros Hd. destruct a as [[|c s]|]; cbn; try exact Hd. discriminate. Qed.

(** X19: what the two review tabs show for the output of [compare]: every row
    of New Users carries a lifetime that is a number above zero, and every
    row of Cancelled has a non-empty previous status (the target's, or
    "Unknown" when the target has none) and "cancelled" as new status. *)
Theorem review_tabs_content (Date_parse : string -> option Z)
    (this : DataComparer) (uscreenData : UscreenData) (sfData : list SFRecord)
    (timestamp : string) :
  Forall (fun row => exists n, row !! 4%nat = Some (Sheets.CNumber n)
                               /\ JS.gt_zero n = true)
    (map (Sheets.newUsers_row timestamp)
       (newUsers (snd (compare Date_parse this uscreenData sfData))))
  /\ Forall (fun row => exists s, row !! 3%nat = Some (Sheets.CString s) /\ s <> ""
                                  /\ row !! 4%nat = Some (Sheets.CString "cancelled"))
       (map (Sheets.cancelled_row timestamp)
          (cancelled (snd (compare Date_parse this uscreenData sfData)))).
Proof.
  split; apply List.Forall_forall; intros row Hrow;
    apply in_map_iff in Hrow as (e & <- & He).
  - apply newUsers_iff in He as (u & _ & _ & Hg & _ & ->).
    exists (user_lifetime u). split; [reflexivity|exact Hg].
  - apply cancelled_iff in He as (u & sf & _ & _ & _ & ->).
    exists (JS.or_str (uscreenSubscriptionStatus sf) "Unknown").
    split; [reflexivity|]. split; [|reflexivity].
    apply or_str_nonempty. discriminate.
Qed.
